(** * Wikipedia scraping pipeline (1_scraping_wikipedia.py)

    A shallow embedding of the retrieval pipeline: title resolution with a
    fallback strategy, plain-text extract and section outline fetchers with
    bounded retries, and the orchestrator that writes one NDJSON record per
    keyword.

    Modelling conventions.
    - A Python [str] is a [string] holding its UTF-8 bytes.
    - The value decoded by [r.json()] is a [json] tree; Python values that
      flow through the program untyped (titles, extract text, page ids) stay
      [json] values, [JNull] standing for [None].  JSON numbers are integers.
    - [SESSION.get], [raise_for_status] and [r.json()] together are one
      oracle call that either raises or yields the decoded document.
    - Durations are in milliseconds: [time.sleep(0.7 * attempt)] is a sleep
      of [700 * attempt], [time.sleep(1.0)] a sleep of [1000].
    - [print] statements have no effect on the modelled state. *)

From Stdlib Require Import List String Ascii ZArith Bool Arith Lia.
Import ListNotations.
Local Open Scope string_scope.
Local Open Scope list_scope.
Local Set Warnings "-register-all".

(** ** Python strings *)

Module PyStr.

Definition code (c : ascii) : nat := nat_of_ascii c.

Definition between (lo hi n : nat) : bool := Nat.leb lo n && Nat.leb n hi.
Definition eqc (k n : nat) : bool := Nat.eqb n k.

(** [str.strip()] removes the characters for which [str.isspace] holds:
    U+0009..U+000D, U+001C..U+0020, U+0085, U+00A0, U+1680, U+2000..U+200A,
    U+2028, U+2029, U+202F, U+205F, U+3000; below, their UTF-8 encodings. *)
Definition ws1 (a : ascii) : bool :=
  between 9 13 (code a) || between 28 32 (code a).

Definition ws2 (a b : ascii) : bool :=
  eqc 194 (code a) && (eqc 133 (code b) || eqc 160 (code b)).

Definition ws3 (a b c : ascii) : bool :=
  let x := code a in
  let y := code b in
  let z := code c in
  (eqc 225 x && eqc 154 y && eqc 128 z)
  || (eqc 226 x && eqc 128 y
      && (between 128 138 z || eqc 168 z || eqc 169 z || eqc 175 z))
  || (eqc 226 x && eqc 129 y && eqc 159 z)
  || (eqc 227 x && eqc 128 y && eqc 128 z).

(** Drop white space from the front of a byte sequence.  With [back] set the
    sequence is a reversed string, so that multi-byte characters are met last
    byte first. *)
Fixpoint drop_ws (back : bool) (l : list ascii) : list ascii :=
  match l with
  | [] => []
  | a :: t =>
      if ws1 a then drop_ws back t
      else
        match t with
        | [] => l
        | b :: t2 =>
            if (if back then ws2 b a else ws2 a b) then drop_ws back t2
            else
              match t2 with
              | [] => l
              | c :: t3 =>
                  if (if back then ws3 c b a else ws3 a b c)
                  then drop_ws back t3
                  else l
              end
        end
  end.

Definition strip (s : string) : string :=
  string_of_list_ascii
    (rev (drop_ws true (rev (drop_ws false (list_ascii_of_string s))))).

(** [s.replace(' ', '_')] *)
Definition replace_space (s : string) : string :=
  string_of_list_ascii
    (map (fun c => if (c =? " ")%char then "_"%char else c)
         (list_ascii_of_string s)).

(** [urllib.parse.quote(s)] with its default [safe='/']: letters, digits and
    [_.-~/] are kept, every other byte of the UTF-8 encoding becomes [%XX]
    with upper-case hexadecimal digits. *)
Definition always_safe (c : ascii) : bool :=
  let n := code c in
  between 65 90 n || between 97 122 n || between 48 57 n
  || eqc 95 n || eqc 46 n || eqc 45 n || eqc 126 n.

Definition hex_digit (n : nat) : ascii :=
  nth n (list_ascii_of_string "0123456789ABCDEF") "0"%char.

Definition quote_byte (c : ascii) : list ascii :=
  if always_safe c || (c =? "/")%char then [c]
  else ["%"%char; hex_digit (code c / 16); hex_digit (code c mod 16)].

Definition quote (s : string) : string :=
  string_of_list_ascii (flat_map quote_byte (list_ascii_of_string s)).

(** The characters [quote] can produce. *)
Definition url_char (c : ascii) : bool :=
  always_safe c || (c =? "/")%char || (c =? "%")%char.

(** Number of bytes of the UTF-8 character that starts with [c]. *)
Definition utf8_len (c : ascii) : nat :=
  let n := code c in
  if Nat.ltb n 192 then 1
  else if Nat.ltb n 224 then 2
  else if Nat.ltb n 240 then 3
  else 4.

Definition first_char (s : string) : string :=
  match s with
  | EmptyString => EmptyString
  | String c _ => substring 0 (utf8_len c) s
  end.

(** The characters of a string, as iterating over it yields them: each lead
    byte takes the continuation bytes (0x80..0xBF) that follow it. *)
Fixpoint chars_from (s : string) : string * list string :=
  match s with
  | EmptyString => (EmptyString, [])
  | String c rest =>
      let (pending, cs) := chars_from rest in
      if between 128 191 (code c) then (String c pending, cs)
      else (EmptyString, String c pending :: cs)
  end.

Definition chars (s : string) : list string := snd (chars_from s).

End PyStr.

(** ** Python values and exceptions *)

Inductive json : Type :=
| JNull
| JBool (b : bool)
| JNum (n : Z)
| JStr (s : string)
| JArr (xs : list json)
| JObj (kvs : list (string * json)).

Inductive exn : Type :=
| RequestError (why : string)
| AttributeError
| KeyError
| IndexError
| TypeError
| RuntimeError (what : string) (subject : json) (last_exc : option exn).

Inductive result (A : Type) : Type :=
| Ok (a : A)
| Raise (e : exn).
Arguments Ok {A} a.
Arguments Raise {A} e.

Definition is_ok {A} (r : result A) : bool :=
  match r with Ok _ => true | Raise _ => false end.

Module Py.

(** Truth value of an object, as tested by [if x], [x or y] and [not x]. *)
Definition truthy (v : json) : bool :=
  match v with
  | JNull => false
  | JBool b => b
  | JNum n => negb (n =? 0)%Z
  | JStr s => negb (s =? "")
  | JArr xs => match xs with [] => false | _ => true end
  | JObj kvs => match kvs with [] => false | _ => true end
  end.

(** [a or b] *)
Definition or (a b : json) : json := if truthy a then a else b.

Fixpoint assoc (k : string) (kvs : list (string * json)) : option json :=
  match kvs with
  | [] => None
  | (k', v) :: rest => if k' =? k then Some v else assoc k rest
  end.

(** [d.get(k, dflt)]; only a dict has the method. *)
Definition get (d : json) (k : string) (dflt : json) : result json :=
  match d with
  | JObj kvs => Ok (match assoc k kvs with Some v => v | None => dflt end)
  | _ => Raise AttributeError
  end.

(** [x[0]] *)
Definition getitem0 (x : json) : result json :=
  match x with
  | JArr (v :: _) => Ok v
  | JArr [] => Raise IndexError
  | JStr s => if s =? "" then Raise IndexError else Ok (JStr (PyStr.first_char s))
  | JObj _ => Raise KeyError
  | _ => Raise TypeError
  end.

(** The items [for s in x] visits: the elements of a list, the keys of a
    dict, the characters of a string. *)
Definition iter (x : json) : result (list json) :=
  match x with
  | JArr xs => Ok xs
  | JObj kvs => Ok (map (fun kv => JStr (fst kv)) kvs)
  | JStr s => Ok (map JStr (PyStr.chars s))
  | _ => Raise TypeError
  end.

(** [len(x)] is defined on strings, lists and dicts only; the model needs
    whether it raises, not its value. *)
Definition has_len (x : json) : bool :=
  match x with
  | JStr _ | JArr _ | JObj _ => true
  | _ => false
  end.

End Py.

(** ** The network *)

Definition MAX_RETRIES : nat := 3.
Definition REQUEST_TIMEOUT : Z := 20.
Definition DELAY_BETWEEN_REQUESTS : Z := 1000.

(** Base of the linear backoff, [0.7] seconds. *)
Definition BACKOFF_BASE : Z := 700.

Record request : Type := mkRequest {
  rq_url : string;
  rq_params : list (string * json);
  rq_timeout : Z
}.

Inductive event : Type :=
| EvGet (rq : request)
| EvSleep (ms : Z).

(** What a step has done so far, oldest event first. *)
Definition trace : Type := list event.

(** A computation that may raise and that extends the trace. *)
Definition M (A : Type) : Type := trace -> result A * trace.

Definition bind_result {A B} (r : result A) (k : A -> result B) : result B :=
  match r with
  | Ok a => k a
  | Raise e => Raise e
  end.

Notation "x <- r ;; k" := (bind_result r (fun x => k))
  (at level 61, r at next level, right associativity).

Definition is_get (e : event) : bool :=
  match e with EvGet _ => true | EvSleep _ => false end.

Definition attempts_made (evs : list event) : nat :=
  List.length (filter is_get evs).

(** The events of [k] failed attempts at request [rq], numbered from [from]:
    each request is followed by its backoff sleep. *)
Fixpoint failed_attempts (rq : request) (from k : nat) : list event :=
  match k with
  | O => []
  | S k' =>
      EvGet rq :: EvSleep (BACKOFF_BASE * Z.of_nat from)
        :: failed_attempts rq (S from) k'
  end.

(** Every sleep of the trace is followed by a request. *)
Fixpoint sleeps_only_between (evs : list event) : bool :=
  match evs with
  | [] => true
  | EvSleep _ :: rest =>
      match rest with
      | EvGet _ :: _ => sleeps_only_between rest
      | _ => false
      end
  | EvGet _ :: rest => sleeps_only_between rest
  end.

Section Steps.

(** The remote side: the answer to a request, given everything that happened
    before it.  [Raise] stands for a failure of the transport, of
    [raise_for_status] or of the JSON decoder. *)
Variable http : trace -> request -> result json.

(** [str(x)] for an [x] that is not a string. *)
Variable repr : json -> string.

Definition py_str (x : json) : string :=
  match x with
  | JStr s => s
  | _ => repr x
  end.

(** [r = SESSION.get(url, params=params, timeout=REQUEST_TIMEOUT)];
    [r.raise_for_status()]; [data = r.json()] *)
Definition session_get (rq : request) : M json :=
  fun tr => (http tr rq, tr ++ [EvGet rq]).

(** One pass through a [try] body: the request, then the reading of the
    document. *)
Definition attempt {A} (rq : request) (read : json -> result A) : M A :=
  fun tr =>
    let (r, tr') := session_get rq tr in
    (data <- r ;; read data, tr').

(** [for attempt in range(1, MAX_RETRIES + 1): try: ... return ...
     except Exception as e: last_exc = e; time.sleep(0.7 * attempt)]
    The result is [inl v] when the body returned [v], and [inr last_exc] when
    the loop ran to its end. *)
Fixpoint retry_loop {A} (body : M A) (attempts : list nat)
    (last_exc : option exn) (tr : trace) : (A + option exn) * trace :=
  match attempts with
  | [] => (inr last_exc, tr)
  | n :: rest =>
      match body tr with
      | (Ok v, tr') => (inl v, tr')
      | (Raise e, tr') =>
          retry_loop body rest (Some e)
            (tr' ++ [EvSleep (BACKOFF_BASE * Z.of_nat n)])
      end
  end.

Definition attempt_numbers : list nat := seq 1 MAX_RETRIES.

(** *** Title resolution *)

Definition action_search_request (query lang : string) : request :=
  mkRequest ("https://" ++ lang ++ ".wikipedia.org/w/api.php")%string
    [("action", JStr "query"); ("list", JStr "search");
     ("srsearch", JStr query); ("srlimit", JNum 1);
     ("format", JStr "json"); ("formatversion", JNum 2)]
    REQUEST_TIMEOUT.

(** [hits = data.get("query", {}).get("search", [])];
    [return hits[0].get("title") if hits else None] *)
Definition read_action_search (data : json) : result json :=
  q <- Py.get data "query" (JObj []) ;;
  hits <- Py.get q "search" (JArr []) ;;
  if Py.truthy hits
  then (hit <- Py.getitem0 hits ;; Py.get hit "title" JNull)
  else Ok JNull.

Definition resolve_title_action_search (query lang : string) : M json :=
  fun tr =>
    match retry_loop (attempt (action_search_request query lang)
                        read_action_search)
            attempt_numbers None tr with
    | (inl v, tr') => (Ok v, tr')
    | (inr last_exc, tr') =>
        (Raise (RuntimeError "Action search failed for" (JStr query) last_exc),
         tr')
    end.

Definition rest_search_request (query lang : string) : request :=
  mkRequest ("https://" ++ lang ++ ".wikipedia.org/w/rest.php/v1/search/page")%string
    [("q", JStr query); ("limit", JNum 1)]
    REQUEST_TIMEOUT.

(** [pages = data.get("pages", [])];
    [return pages[0].get("title") if pages else None] *)
Definition read_rest_search (data : json) : result json :=
  pages <- Py.get data "pages" (JArr []) ;;
  if Py.truthy pages
  then (page <- Py.getitem0 pages ;; Py.get page "title" JNull)
  else Ok JNull.

Definition resolve_title_rest_search (query lang : string) : M json :=
  fun tr =>
    match retry_loop (attempt (rest_search_request query lang)
                        read_rest_search)
            attempt_numbers None tr with
    | (inl v, tr') => (Ok v, tr')
    | (inr last_exc, tr') =>
        (Raise (RuntimeError "REST search failed for" (JStr query) last_exc),
         tr')
    end.

Definition resolve_title (query lang : string) : M json :=
  fun tr =>
    match resolve_title_action_search query lang tr with
    | (Ok title, tr') =>
        if Py.truthy title then (Ok title, tr')
        else resolve_title_rest_search query lang tr'
    | (Raise e, tr') => (Raise e, tr')
    end.

(** *** Content and table of contents *)

Definition extract_request (title : json) (lang : string) : request :=
  mkRequest ("https://" ++ lang ++ ".wikipedia.org/w/api.php")%string
    [("action", JStr "query"); ("prop", JStr "extracts");
     ("explaintext", JNum 1); ("redirects", JNum 1);
     ("format", JStr "json"); ("formatversion", JNum 2);
     ("titles", title)]
    REQUEST_TIMEOUT.

(** Lines 152-159: the triple [(text, norm_title, pageid)]. *)
Definition read_extract (title : json) (data : json)
    : result (json * json * json) :=
  q <- Py.get data "query" (JObj []) ;;
  pages <- Py.get q "pages" (JArr []) ;;
  if negb (Py.truthy pages) then Ok (JStr "", title, JNull)
  else
    page <- Py.getitem0 pages ;;
    extract <- Py.get page "extract" JNull ;;
    let text := Py.or extract (JStr "") in
    norm_title <- Py.get page "title" title ;;
    pageid <- Py.get page "pageid" JNull ;;
    Ok (text, norm_title, pageid).

Definition fetch_plaintext_extract (title : json) (lang : string)
    : M (json * json * json) :=
  fun tr =>
    match retry_loop (attempt (extract_request title lang)
                        (read_extract title))
            attempt_numbers None tr with
    | (inl v, tr') => (Ok v, tr')
    | (inr last_exc, tr') =>
        (Raise (RuntimeError "Extract failed for" title last_exc), tr')
    end.

Definition sections_request (title : json) (lang : string) : request :=
  mkRequest ("https://" ++ lang ++ ".wikipedia.org/w/api.php")%string
    [("action", JStr "parse"); ("page", title);
     ("prop", JStr "sections"); ("format", JStr "json")]
    REQUEST_TIMEOUT.

(** [name = s.get("line") or s.get("anchor") or ""] *)
Definition section_name (s : json) : result json :=
  line <- Py.get s "line" JNull ;;
  if Py.truthy line then Ok line
  else
    anchor <- Py.get s "anchor" JNull ;;
    Ok (Py.or anchor (JStr "")).

(** The loop of lines 185-189, [toc] being the list built so far. *)
Fixpoint collect_toc (sections : list json) (toc : list string)
    : result (list string) :=
  match sections with
  | [] => Ok toc
  | s :: rest =>
      name <- section_name s ;;
      let name := PyStr.strip (py_str name) in
      if negb (name =? "") then collect_toc rest (toc ++ [name])
      else collect_toc rest toc
  end.

Definition read_sections (data : json) : result (list string) :=
  p <- Py.get data "parse" (JObj []) ;;
  sections <- Py.get p "sections" (JArr []) ;;
  items <- Py.iter sections ;;
  collect_toc items [].

Definition fetch_sections (title : json) (lang : string) : M (list string) :=
  fun tr =>
    match retry_loop (attempt (sections_request title lang) read_sections)
            attempt_numbers None tr with
    | (inl toc, tr') => (Ok toc, tr')
    | (inr _, tr') => (Ok [], tr')
    end.

End Steps.

(** ** Records and the orchestrator *)

(** The object serialised on each line of [data.txt]. *)
Record ArticleRecord : Type := mkRecord {
  url : string;
  title : json;
  table_of_contents : list string;
  raw_text : json
}.

(** [title.replace(' ', '_')] exists on strings only. *)
Definition canonical_url (lang : string) (ttl : json) : result string :=
  match ttl with
  | JStr t =>
      Ok ("https://" ++ lang ++ ".wikipedia.org/wiki/"
            ++ PyStr.quote (PyStr.replace_space t))%string
  | _ => Raise AttributeError
  end.

(** What the orchestrator itself does, oldest first. *)
Inductive action : Type :=
| Wrote (r : ArticleRecord)
| Slept (ms : Z).

Definition is_pause (a : action) : bool :=
  match a with Slept _ => true | Wrote _ => false end.

(** State of a run: the state of the steps, the lines of [data.txt] (one
    record per line) and the orchestrator's own actions. *)
Record world (Net : Type) : Type := mkWorld {
  net : Net;
  data_txt : list ArticleRecord;
  journal : list action
}.
Arguments mkWorld {Net} net data_txt journal.
Arguments net {Net} w.
Arguments data_txt {Net} w.
Arguments journal {Net} w.

Section Orchestrator.

Variable Net : Type.

(** [str(x)] for an [x] that is not a string. *)
Variable repr : json -> string.

(** The three steps called for each keyword.  They are parameters here so
    that statements can range over everything a step may do; [run_pipeline]
    below passes the steps of the program. *)
Variable resolve : string -> string -> Net -> result json * Net.
Variable fetchExtract :
  json -> string -> Net -> result (json * json * json) * Net.
Variable fetchOutline : json -> string -> Net -> result (list string) * Net.

Definition set_net (w : world Net) (n : Net) : world Net :=
  mkWorld n (data_txt w) (journal w).

(** [with out_path.open("w", encoding="utf-8") as f] *)
Definition open_w (w : world Net) : world Net :=
  mkWorld (net w) [] (journal w).

(** [f.write(json.dumps(obj, ensure_ascii=False) + "\n")] *)
Definition write (obj : ArticleRecord) (w : world Net) : world Net :=
  mkWorld (net w) (data_txt w ++ [obj]) (journal w ++ [Wrote obj]).

(** [time.sleep(DELAY_BETWEEN_REQUESTS)] *)
Definition pause (w : world Net) : world Net :=
  mkWorld (net w) (data_txt w) (journal w ++ [Slept DELAY_BETWEEN_REQUESTS]).

(** [query = str(df.loc[idx, "Keyword"]).strip()] *)
Definition keyword (cell : json) : string :=
  PyStr.strip (match cell with JStr s => s | _ => repr cell end).

(** Lines 210-216: the effective title. *)
Definition resolve_stage (lang query : string) (n : Net) : json * Net :=
  let (r, n') := resolve query lang n in
  let resolved := match r with Ok v => v | Raise _ => JNull end in
  (Py.or resolved (JStr query), n').

(** Lines 219-223. *)
Definition content_stage (lang : string) (ttl : json) (n : Net)
    : (json * json * json) * Net :=
  let (r, n') := fetchExtract ttl lang n in
  (match r with Ok v => v | Raise _ => (JStr "", ttl, JNull) end, n').

(** Lines 226-230. *)
Definition outline_stage (lang : string) (norm_title : json) (n : Net)
    : list string * Net :=
  let (r, n') := fetchOutline norm_title lang n in
  (match r with Ok toc => toc | Raise _ => [] end, n').

(** Lines 232-247: build the object, write its line, report, sleep.  The
    progress message evaluates [len(text)]. *)
Definition emit (lang : string) (text norm_title : json) (toc : list string)
    (w : world Net) : result unit * world Net :=
  match canonical_url lang norm_title with
  | Raise e => (Raise e, w)
  | Ok u =>
      let w1 := write (mkRecord u norm_title toc text) w in
      if Py.has_len text then (Ok tt, pause w1) else (Raise TypeError, w1)
  end.

(** Everything after the effective title [ttl] is known, the steps being in
    state [n1]. *)
Definition fetch_and_emit (lang : string) (ttl : json) (n1 : Net)
    (w : world Net) : result unit * world Net :=
  let '((text, norm_title, _), n2) := content_stage lang ttl n1 in
  let (toc, n3) := outline_stage lang norm_title n2 in
  emit lang text norm_title toc (set_net w n3).

Definition process_query (lang query : string) (w : world Net)
    : result unit * world Net :=
  let (ttl, n1) := resolve_stage lang query (net w) in
  fetch_and_emit lang ttl n1 w.

(** One iteration of [for idx in df.index]. *)
Definition process_row (lang : string) (cell : json) (w : world Net)
    : result unit * world Net :=
  let query := keyword cell in
  if query =? "" then (Ok tt, w) else process_query lang query w.

Fixpoint rows_loop (lang : string) (rows : list json) (w : world Net)
    : result unit * world Net :=
  match rows with
  | [] => (Ok tt, w)
  | cell :: rest =>
      match process_row lang cell w with
      | (Ok _, w') => rows_loop lang rest w'
      | (Raise e, w') => (Raise e, w')
      end
  end.

(** [df] is the "Keyword" column, in index order. *)
Definition fetch_and_write_ndjson (df : list json) (lang : string)
    (w : world Net) : result unit * world Net :=
  rows_loop lang df (open_w w).

End Orchestrator.

Arguments fetch_and_write_ndjson {Net}.
Arguments rows_loop {Net}.
Arguments process_row {Net}.
Arguments process_query {Net}.
Arguments fetch_and_emit {Net}.
Arguments emit {Net}.
Arguments resolve_stage {Net}.
Arguments content_stage {Net}.
Arguments outline_stage {Net}.
Arguments set_net {Net}.
Arguments open_w {Net}.
Arguments write {Net}.
Arguments pause {Net}.

(** The program: the orchestrator over the four functions above. *)
Definition run_pipeline (http : trace -> request -> result json)
    (repr : json -> string) (df : list json) (lang : string)
    (w : world trace) : result unit * world trace :=
  fetch_and_write_ndjson repr (resolve_title http)
    (fetch_plaintext_extract http) (fetch_sections http repr) df lang w.

(** *** Steps that respect their annotations

    [resolve_title] is annotated [Optional[str]], [fetch_plaintext_extract]
    [Tuple[str, str, Optional[int]]] and [fetch_sections] [List[str]]. *)

Definition of_optional_str (o : option string) : json :=
  match o with Some s => JStr s | None => JNull end.

Definition of_optional_int (o : option Z) : json :=
  match o with Some i => JNum i | None => JNull end.

Definition typed_resolve {Net : Type}
    (f : string -> string -> Net -> result (option string) * Net)
    : string -> string -> Net -> result json * Net :=
  fun query lang n =>
    let (r, n') := f query lang n in
    (v <- r ;; Ok (of_optional_str v), n').

Definition typed_extract {Net : Type}
    (f : json -> string -> Net -> result (string * string * option Z) * Net)
    : json -> string -> Net -> result (json * json * json) * Net :=
  fun ttl lang n =>
    let (r, n') := f ttl lang n in
    (v <- r ;;
     let '(text, norm_title, pageid) := v in
     Ok (JStr text, JStr norm_title, of_optional_int pageid), n').

(** ** Reference descriptions

    What the specification says the program computes, written directly; the
    theorems below compare the program with them. *)

(** Events of one call that fails [failures] times and then either gets its
    answer ([returned]) or gives up. *)
Definition call_events (rq : request) (failures : nat) (returned : bool)
    : list event :=
  failed_attempts rq 1 failures ++ (if returned then [EvGet rq] else []).

(** Whether the attempt made after [j] failed ones gets through: the
    request is answered and the document can be read. *)
Definition nth_attempt_ok {A : Type} (http : trace -> request -> result json)
    (rq : request) (read : json -> result A) (tr : trace) (j : nat) : bool :=
  is_ok (fst (attempt http rq read (tr ++ failed_attempts rq 1 j))).

(** Every attempt of one call, up to the ceiling, fails. *)
Definition attempts_fail {A : Type} (http : trace -> request -> result json)
    (rq : request) (read : json -> result A) (tr : trace) : Prop :=
  forall j, j < MAX_RETRIES -> nth_attempt_ok http rq read tr j = false.

(** The retry policy as the program follows it.  A call started on trace
    [tr] makes its attempts one after the other until one gets through or
    [MAX_RETRIES] have failed; [failures] is the number of attempts that
    failed and [returned] tells whether one got through.  Every failed
    attempt, the last one included, is followed by its backoff sleep, so
    that a call that gives up ends on a sleep of
    [BACKOFF_BASE * MAX_RETRIES].  A function that [raises] ends normally
    exactly when an attempt got through; one that does not always ends
    normally. *)
Definition retry_discipline {A B : Type}
    (http : trace -> request -> result json) (rq : request)
    (read : json -> result A) (raises : bool) (f : M B) : Prop :=
  forall tr, exists failures returned,
    snd (f tr) = tr ++ call_events rq failures returned
    /\ (forall j, j < failures -> nth_attempt_ok http rq read tr j = false)
    /\ (if returned
        then failures < MAX_RETRIES
             /\ nth_attempt_ok http rq read tr failures = true
        else failures = MAX_RETRIES
             /\ snd (f tr)
                = (tr ++ failed_attempts rq 1 (MAX_RETRIES - 1)
                      ++ [EvGet rq])
                  ++ [EvSleep (BACKOFF_BASE * Z.of_nat MAX_RETRIES)])
    /\ attempts_made (call_events rq failures returned) <= MAX_RETRIES
    /\ is_ok (fst (f tr)) = (returned || negb raises)%bool.

(** The retry policy with sleeps between consecutive attempts only. *)
Definition sleeps_between_attempts_only {A : Type} (f : M A) : Prop :=
  forall tr, exists evs,
    snd (f tr) = tr ++ evs
    /\ attempts_made evs <= MAX_RETRIES
    /\ sleeps_only_between evs = true.

(** The [url] of a record is the canonical URL of its own [title]. *)
Definition url_is_canonical (lang : string) (r : ArticleRecord) : Prop :=
  canonical_url lang (title r) = Ok (url r)
  /\ exists t,
       title r = JStr t
       /\ url r = ("https://" ++ lang ++ ".wikipedia.org/wiki/"
                    ++ PyStr.quote (PyStr.replace_space t))%string.

(** Title resolution gave nothing to use: it raised, or it returned [None]
    (or any other false value). *)
Definition no_title (r : result json) : Prop :=
  match r with
  | Raise _ => True
  | Ok v => Py.truthy v = false
  end.

(** Every attempt at the request fails, whenever it is made: the transport
    fails or the document cannot be read. *)
Definition always_fails {A : Type} (http : trace -> request -> result json)
    (rq : request) (read : json -> result A) : Prop :=
  forall tr, is_ok (fst (attempt http rq read tr)) = false.

(** A step gives the same result whenever it is called with the same
    arguments, whatever happened before: the remote state does not change. *)
Definition stable_results {Net A B : Type}
    (step : A -> string -> Net -> result B * Net) : Prop :=
  forall a lang n n', fst (step a lang n) = fst (step a lang n').

(** The remote answers a request the same way whenever it is asked. *)
Definition steady (http : trace -> request -> result json) : Prop :=
  forall tr tr' rq, http tr rq = http tr' rq.

Definition all_canonical {Net : Type} (lang : string) (w : world Net)
    : Prop :=
  Forall (url_is_canonical lang) (data_txt w).

(** Two runs end the same way and leave the same lines in [data.txt]. *)
Definition same_file {Net : Type} (a b : result unit * world Net) : Prop :=
  fst a = fst b /\ data_txt (snd a) = data_txt (snd b).

(** The keywords that are not blank, in input order. *)
Definition queries (repr : json -> string) (df : list json) : list string :=
  filter (fun q => negb (q =? "")) (map (keyword repr) df).

(** The actions of a run that writes [records]. *)
Definition spec_journal (records : list ArticleRecord) : list action :=
  flat_map (fun r => [Wrote r; Slept DELAY_BETWEEN_REQUESTS]) records.

Section PerQueryStateMachine.

Variable Net : Type.
Variable resolve : string -> string -> Net -> result (option string) * Net.
Variable fetchExtract :
  json -> string -> Net -> result (string * string * option Z) * Net.
Variable fetchOutline : json -> string -> Net -> result (list string) * Net.

(** PENDING -> RESOLVING -> RESOLVED | RESOLUTION_FAILED (fallback)
    -> FETCHING_CONTENT -> CONTENT_OK | CONTENT_FAILED (fallback)
    -> FETCHING_OUTLINE -> OUTLINE_OK | OUTLINE_EMPTY -> RECORD_WRITTEN *)
Definition spec_record (lang query : string) (n : Net)
    : ArticleRecord * Net :=
  let (r1, n1) := resolve query lang n in
  let ttl :=
    match r1 with
    | Ok (Some t) => if t =? "" then query else t
    | Ok None => query
    | Raise _ => query
    end in
  let (r2, n2) := fetchExtract (JStr ttl) lang n1 in
  let '(text, norm_title) :=
    match r2 with
    | Ok (text, norm_title, _) => (text, norm_title)
    | Raise _ => ("", ttl)
    end in
  let (r3, n3) := fetchOutline (JStr norm_title) lang n2 in
  let toc := match r3 with Ok toc => toc | Raise _ => [] end in
  (mkRecord ("https://" ++ lang ++ ".wikipedia.org/wiki/"
               ++ PyStr.quote (PyStr.replace_space norm_title))%string
            (JStr norm_title) toc (JStr text),
   n3).

Fixpoint spec_records (lang : string) (qs : list string) (n : Net)
    : list ArticleRecord * Net :=
  match qs with
  | [] => ([], n)
  | q :: rest =>
      let (r, n') := spec_record lang q n in
      let (rs, n'') := spec_records lang rest n' in
      (r :: rs, n'')
  end.

End PerQueryStateMachine.

Arguments spec_record {Net}.
Arguments spec_records {Net}.

(** The document of the extract endpoint lists no page. *)
Definition no_pages (data : json) : Prop :=
  exists q pages,
    Py.get data "query" (JObj []) = Ok q
    /\ Py.get q "pages" (JArr []) = Ok pages
    /\ Py.truthy pages = false.

(** The search document lists no hit. *)
Definition no_hits (data : json) : Prop :=
  exists q hits,
    Py.get data "query" (JObj []) = Ok q
    /\ Py.get q "search" (JArr []) = Ok hits
    /\ Py.truthy hits = false.

(** The name each section contributes, or the exception that reading the
    sections raises. *)
Fixpoint section_names (sections : list json) : result (list json) :=
  match sections with
  | [] => Ok []
  | s :: rest =>
      name <- section_name s ;;
      names <- section_names rest ;;
      Ok (name :: names)
  end.

(** Names as strings, stripped, the empty ones dropped. *)
Definition spec_toc (repr : json -> string) (names : list json)
    : list string :=
  filter (fun name => negb (name =? ""))
         (map (fun name => PyStr.strip (py_str repr name)) names).

Definition lookup (k : string) (kvs : list (string * json)) : json :=
  match Py.assoc k kvs with Some v => v | None => JNull end.

(** The names that the sections of an outline document contribute, in the
    order of the document, or the exception that reading them raises. *)
Definition document_names (data : json) : result (list json) :=
  p <- Py.get data "parse" (JObj []) ;;
  sections <- Py.get p "sections" (JArr []) ;;
  items <- Py.iter sections ;;
  section_names items.

(** The first page entry of the extract document is marked as missing and
    carries no extract: the reply of the API for a title that has no
    article. *)
Definition marked_missing (data : json) : Prop :=
  exists q kvs rest,
    Py.get data "query" (JObj []) = Ok q
    /\ Py.get q "pages" (JArr []) = Ok (JArr (JObj kvs :: rest))
    /\ Py.truthy (lookup "missing" kvs) = true
    /\ Py.assoc "extract" kvs = None.

(** The extract endpoint answered, and the article is not found. *)
Definition article_not_found (data : json) : Prop :=
  no_pages data \/ marked_missing data.

(** The title read from a page entry: its own, or the one asked for when
    it has none. *)
Definition page_title (ttl : json) (kvs : list (string * json)) : json :=
  match Py.assoc "title" kvs with Some t => t | None => ttl end.

(** ** Sample remotes *)

Module Sample.

Definition has_param (k : string) (rq : request) : bool :=
  match Py.assoc k (rq_params rq) with Some _ => true | None => false end.

Definition repr (x : json) : string := "<object>".

(** Every request fails. *)
Definition down (tr : trace) (rq : request) : result json :=
  Raise (RequestError "connection refused").

Definition search_doc (hits : list json) : json :=
  JObj [("query", JObj [("search", JArr hits)])].

Definition extract_doc (pages : list json) : json :=
  JObj [("query", JObj [("pages", JArr pages)])].

Definition sections_doc (sections : list json) : json :=
  JObj [("parse", JObj [("sections", JArr sections)])].

(** The article of the specification's scenario. *)
Definition einstein (tr : trace) (rq : request) : result json :=
  if has_param "srsearch" rq then
    Ok (search_doc [JObj [("title", JStr "Albert Einstein")]])
  else if has_param "titles" rq then
    Ok (extract_doc
          [JObj [("pageid", JNum 736); ("title", JStr "Albert Einstein");
                 ("extract", JStr "Albert Einstein was...")]])
  else if has_param "page" rq then
    Ok (sections_doc
          [JObj [("line", JStr "Early life"); ("anchor", JStr "Early_life")];
           JObj [("anchor", JStr " Career ")];
           JObj [("line", JStr "  ")]])
  else Raise (RequestError "404").

(** As [einstein], the outline endpoint being out of order. *)
Definition no_outline (tr : trace) (rq : request) : result json :=
  if has_param "page" rq then Raise (RequestError "503")
  else einstein tr rq.

(** Nothing is known about any keyword. *)
Definition unknown (tr : trace) (rq : request) : result json :=
  if has_param "srsearch" rq then Ok (search_doc [])
  else if has_param "q" rq then Ok (JObj [("pages", JArr [])])
  else if has_param "titles" rq then Ok (extract_doc [])
  else if has_param "page" rq then Ok (JObj [("error", JObj [])])
  else Raise (RequestError "404").

(** The first two requests fail, the following ones are answered as by
    [unknown]. *)
Definition flaky (tr : trace) (rq : request) : result json :=
  if Nat.ltb (attempts_made tr) 2 then Raise (RequestError "timeout")
  else unknown tr rq.

(** A remote whose extract document carries a number where the title
    should be: outside what the annotations of the steps allow. *)
Definition ill_typed (tr : trace) (rq : request) : result json :=
  if has_param "titles" rq then
    Ok (extract_doc [JObj [("title", JNum 5); ("extract", JStr "text")]])
  else unknown tr rq.

Definition fresh : world trace := mkWorld [] [] [].

(** A world whose [data.txt] holds a line of an earlier run. *)
Definition stale : world trace :=
  mkWorld [] [mkRecord "https://en.wikipedia.org/wiki/Old" (JStr "Old") []
                (JStr "")] [].

End Sample.

(** The reply of the API for a title without article: a page entry under
    the normalised title, marked missing, and nothing else. *)
Definition missing_page_doc : json :=
  Sample.extract_doc [JObj [("title", JStr "Zzzz"); ("missing", JBool true)]].

(** A remote that knows no article. *)
Definition no_article (tr : trace) (rq : request) : result json :=
  if Sample.has_param "titles" rq then Ok missing_page_doc
  else Sample.unknown tr rq.

(** ** File names *)

(** The characters of [bad]: less-than, greater-than, colon, double quote,
    slash, backslash, bar, question mark and star. *)
Definition bad_filename_chars : list ascii :=
  ["<"; ">"; ":"; ascii_of_nat 34; "/"; "\"; "|"; "?"; "*"]%char.

(** [name.replace(ch, "_")] for a one-character [ch]. *)
Definition replace_char (ch : ascii) (name : string) : string :=
  string_of_list_ascii
    (map (fun c => if (c =? ch)%char then "_"%char else c)
         (list_ascii_of_string name)).

(** [name[:n]]: the first [n] characters. *)
Definition take_chars (n : nat) (name : string) : string :=
  String.concat "" (firstn n (PyStr.chars name)).

(** [for ch in bad: name = name.replace(ch, "_")];
    [return name.strip()[:180]] *)
Definition safe_filename (name : string) : string :=
  let name :=
    fold_left (fun nm ch => replace_char ch nm) bad_filename_chars name in
  take_chars 180 (PyStr.strip name).

(** Number of characters, [len(s)]. *)
Definition char_count (s : string) : nat := List.length (PyStr.chars s).

(** ** Measures on traces and journals *)

(** Time spent in backoff sleeps, in milliseconds. *)
Fixpoint backoff_ms (evs : list event) : Z :=
  match evs with
  | [] => 0
  | EvSleep ms :: rest => ms + backoff_ms rest
  | EvGet _ :: rest => backoff_ms rest
  end.

(** The records a journal says were written. *)
Fixpoint writes_of (j : list action) : list ArticleRecord :=
  match j with
  | [] => []
  | Wrote r :: rest => r :: writes_of rest
  | Slept _ :: rest => writes_of rest
  end.

(** A computation only adds events, and what it adds satisfies [P]. *)
Definition adds {A : Type} (P : list event -> Prop) (f : M A) : Prop :=
  forall tr, exists evs, snd (f tr) = tr ++ evs /\ P evs.

(** At most [n] requests and [ms] milliseconds of backoff. *)
Definition within (n : nat) (ms : Z) (evs : list event) : Prop :=
  attempts_made evs <= n /\ (0 <= backoff_ms evs <= ms)%Z.

Definition is_dict (x : json) : bool :=
  match x with JObj _ => true | _ => false end.

Definition is_str (x : json) : bool :=
  match x with JStr _ => true | _ => false end.

(** The remote is out of order: no request is ever answered. *)
Definition outage (http : trace -> request -> result json) : Prop :=
  forall tr rq, is_ok (http tr rq) = false.

(** The record written for a keyword that nothing could be fetched for. *)
Definition bare_record (lang query : string) : ArticleRecord :=
  mkRecord ("https://" ++ lang ++ ".wikipedia.org/wiki/"
              ++ PyStr.quote (PyStr.replace_space query))%string
           (JStr query) [] (JStr "").

(** What a record of the program always satisfies, besides C3. *)
Definition record_well_formed (r : ArticleRecord) : Prop :=
  Forall (fun name => name <> "" /\ PyStr.strip name = name)
         (table_of_contents r)
  /\ (raw_text r = JStr "" \/ Py.truthy (raw_text r) = true).

(** How a run over [nq] keywords that are not blank can end, [rs] being the
    lines of [data.txt] and [delta] the actions of the run. *)
Definition run_outcome (res : result unit) (rs : list ArticleRecord)
    (delta : list action) (nq : nat) : Prop :=
  match res with
  | Ok _ => delta = spec_journal rs /\ List.length rs = nq
  | Raise e =>
      (e = AttributeError /\ delta = spec_journal rs /\ List.length rs < nq)
      \/ (e = TypeError
          /\ exists rs0 r,
               rs = rs0 ++ [r]
               /\ delta = spec_journal rs0 ++ [Wrote r]
               /\ Py.has_len (raw_text r) = false
               /\ List.length rs <= nq)
  end.

(** [u] is [enc] after the address of the language edition. *)
Definition wiki_url (lang enc u : string) : Prop :=
  u = ("https://" ++ lang ++ ".wikipedia.org/wiki/" ++ enc)%string.

(** Characters that [canonical_url] leaves as they are, the space becoming
    an underscore. *)
Definition plain_title_char (c : ascii) : bool :=
  PyStr.always_safe c || (c =? "/")%char || (c =? " ")%char.

(** A character as iteration yields it: one byte that is not a continuation
    byte, followed by continuation bytes only. *)
Definition is_continuation (c : ascii) : bool :=
  PyStr.between 128 191 (PyStr.code c).

Definition one_char (piece : string) : bool :=
  match piece with
  | EmptyString => false
  | String c rest =>
      negb (is_continuation c)
      && forallb is_continuation (list_ascii_of_string rest)
  end.

(** * Properties *)

Example strip_demo : PyStr.strip "  Albert Einstein	 " = "Albert Einstein".
Proof. reflexivity. Qed.

Example quote_demo : PyStr.quote "a b/c?d" = "a%20b/c%3Fd".
Proof. reflexivity. Qed.

Example chars_demo : PyStr.chars "aé b" = ["a"; "é"; " "; "b"].
Proof. reflexivity. Qed.

(** ** The retry loop *)

Section RetryFacts.

Variable http : trace -> request -> result json.
Context {A : Type}.
Variable rq : request.
Variable read : json -> result A.

Lemma attempt_unfold (tr : trace) :
  attempt http rq read tr = (data <- http tr rq ;; read data, tr ++ [EvGet rq]).
Proof. reflexivity. Qed.

(** The events of a loop over attempts [from, from+1, ..]. *)
Lemma retry_loop_shape (k : nat) :
  forall (from : nat) (last : option exn) (tr : trace),
  exists failures,
    match retry_loop (attempt http rq read) (seq from k) last tr with
    | (inl _, tr') =>
        failures < k
        /\ tr' = tr ++ failed_attempts rq from failures ++ [EvGet rq]
    | (inr _, tr') =>
        failures = k /\ tr' = tr ++ failed_attempts rq from k
    end.
Proof.
  induction k as [|k IH]; intros from last tr.
  - exists 0. simpl. now rewrite app_nil_r.
  - cbn [seq retry_loop]. rewrite attempt_unfold.
    destruct (data <- http tr rq ;; read data) as [v|e].
    + exists 0. split; [lia | reflexivity].
    + destruct (IH (S from) (Some e)
                  ((tr ++ [EvGet rq]) ++ [EvSleep (BACKOFF_BASE * Z.of_nat from)]))
        as [f Hf].
      destruct (retry_loop _ _ _ _) as [[v|l] tr'].
      * exists (S f). destruct Hf as [Hlt ->]. split; [lia|].
        simpl. now rewrite <- !app_assoc.
      * exists (S k). destruct Hf as [_ ->]. split; [reflexivity|].
        simpl. now rewrite <- !app_assoc.
Qed.

(** A value returned by the loop was read from a document that the remote
    served during the call. *)
Lemma retry_loop_returned (atts : list nat) :
  forall (last : option exn) (tr tr' : trace) (v : A),
    retry_loop (attempt http rq read) atts last tr = (inl v, tr') ->
    exists tr0 data, http tr0 rq = Ok data /\ read data = Ok v.
Proof.
  induction atts as [|n atts IH]; intros last tr tr' v H.
  - discriminate.
  - cbn [retry_loop] in H. rewrite attempt_unfold in H.
    destruct (http tr rq) as [data|e] eqn:Hh; cbn [bind_result] in H.
    + destruct (read data) as [v0|e] eqn:Hr.
      * injection H as -> _. now exists tr, data.
      * eapply IH; eassumption.
    + eapply IH; eassumption.
Qed.

(** The loop gives up only with an exception in hand, as long as there is at
    least one attempt. *)
Lemma retry_loop_exhausted (atts : list nat) :
  forall (last l : option exn) (tr tr' : trace),
    retry_loop (attempt http rq read) atts last tr = (inr l, tr') ->
    (atts = [] /\ l = last) \/ exists e, l = Some e.
Proof.
  induction atts as [|n atts IH]; intros last l tr tr' H.
  - injection H as <- _. now left.
  - right. cbn [retry_loop] in H. rewrite attempt_unfold in H.
    destruct (data <- http tr rq ;; read data) as [v|e]; [discriminate|].
    apply IH in H. destruct H as [[_ ->]|H]; [now exists e | exact H].
Qed.

(** Attempts that all failed are a prefix of any longer loop. *)
Lemma retry_loop_app (pre post : list nat) :
  forall (last l : option exn) (tr tr1 : trace),
    retry_loop (attempt http rq read) pre last tr = (inr l, tr1) ->
    retry_loop (attempt http rq read) (pre ++ post) last tr
    = retry_loop (attempt http rq read) post l tr1.
Proof.
  induction pre as [|n pre IH]; intros last l tr tr1 H.
  - injection H as <- <-. reflexivity.
  - cbn [retry_loop app] in *.
    destruct (attempt http rq read tr) as [[v|e] tr'].
    + discriminate.
    + now apply IH.
Qed.

End RetryFacts.

Lemma attempts_made_failed (rq : request) (k : nat) :
  forall from, attempts_made (failed_attempts rq from k) = k.
Proof.
  induction k as [|k IH]; intros from; [reflexivity|].
  unfold attempts_made in *. simpl. now rewrite IH.
Qed.

Lemma attempts_made_call (rq : request) (failures : nat) (returned : bool) :
  attempts_made (call_events rq failures returned)
  = failures + (if returned then 1 else 0).
Proof.
  unfold call_events, attempts_made.
  rewrite filter_app, length_app.
  fold (attempts_made (failed_attempts rq 1 failures)).
  rewrite attempts_made_failed. now destruct returned.
Qed.

(** One call of a function built on the retry loop: its events, and how
    many attempts they hold. *)
Lemma call_shape (http : trace -> request -> result json) {A : Type}
    (rq : request) (read : json -> result A) (tr : trace) :
  exists failures returned,
    snd (retry_loop (attempt http rq read) attempt_numbers None tr)
    = tr ++ call_events rq failures returned
    /\ (if returned then failures < MAX_RETRIES else failures = MAX_RETRIES)
    /\ (returned = true <->
        exists v, fst (retry_loop (attempt http rq read) attempt_numbers
                         None tr) = inl v).
Proof.
  destruct (retry_loop_shape http rq read MAX_RETRIES 1 None tr) as [f Hf].
  unfold attempt_numbers.
  destruct (retry_loop _ _ _ _) as [[v|l] tr'].
  - exists f, true. destruct Hf as [Hlt ->].
    split; [reflexivity|]. split; [exact Hlt|].
    split; [intros _; now exists v | reflexivity].
  - exists MAX_RETRIES, false. destruct Hf as [_ ->]. unfold call_events.
    split; [reflexivity|]. split; [reflexivity|].
    split; [discriminate | intros [v Hv]; discriminate].
Qed.

(** ** Retry ceiling and backoff *)

(** The loop over attempts [from, from+1, ..]: which attempts failed, which
    one got through, and the events this leaves. *)
Lemma retry_loop_run (http : trace -> request -> result json) {A : Type}
    (rq : request) (read : json -> result A) (k : nat) :
  forall (from : nat) (last : option exn) (tr : trace),
  exists failures,
    (forall j, j < failures ->
       is_ok (fst (attempt http rq read
                     (tr ++ failed_attempts rq from j))) = false)
    /\ match retry_loop (attempt http rq read) (seq from k) last tr with
       | (inl v, tr') =>
           failures < k
           /\ tr' = tr ++ failed_attempts rq from failures ++ [EvGet rq]
           /\ fst (attempt http rq read
                     (tr ++ failed_attempts rq from failures)) = Ok v
       | (inr _, tr') =>
           failures = k /\ tr' = tr ++ failed_attempts rq from k
       end.
Proof.
  induction k as [|k IH]; intros from last tr.
  - exists 0. split; [intros j Hj; lia|]. cbn. now rewrite app_nil_r.
  - cbn [seq retry_loop].
    destruct (attempt http rq read tr) as [[v|e] tr1] eqn:Hatt.
    + exists 0. split; [intros j Hj; lia|].
      cbn [failed_attempts app]. rewrite app_nil_r, Hatt.
      rewrite attempt_unfold in Hatt. injection Hatt as Hv <-.
      split; [lia|]. now split.
    + assert (Htr1 : tr1 = tr ++ [EvGet rq]).
      { rewrite attempt_unfold in Hatt. now injection Hatt as _ <-. }
      subst tr1.
      destruct (IH (S from) (Some e)
                  ((tr ++ [EvGet rq])
                     ++ [EvSleep (BACKOFF_BASE * Z.of_nat from)]))
        as (f & Hfails & Hloop).
      assert (Hshift : forall n,
                 ((tr ++ [EvGet rq])
                    ++ [EvSleep (BACKOFF_BASE * Z.of_nat from)])
                   ++ failed_attempts rq (S from) n
                 = tr ++ failed_attempts rq from (S n)).
      { intros n. cbn [failed_attempts]. now rewrite <- !app_assoc. }
      assert (Hall : forall j, j < S f ->
                 is_ok (fst (attempt http rq read
                               (tr ++ failed_attempts rq from j))) = false).
      { intros [|j] Hj.
        - cbn [failed_attempts]. rewrite app_nil_r, Hatt. reflexivity.
        - rewrite <- Hshift. apply Hfails. lia. }
      destruct (retry_loop _ _ _ _) as [[v|l] tr'].
      * exists (S f). destruct Hloop as (Hlt & -> & Hv).
        split; [exact Hall|]. split; [lia|]. split.
        -- rewrite app_assoc, Hshift. now rewrite <- app_assoc.
        -- now rewrite <- Hshift.
      * exists (S k). destruct Hloop as (-> & ->).
        split; [exact Hall|]. split; [reflexivity|]. apply Hshift.
Qed.

Lemma retry_discipline_of_loop (http : trace -> request -> result json)
    {A B : Type} (rq : request) (read : json -> result A) (raises : bool)
    (f : M B) :
  (forall tr,
     snd (f tr)
     = snd (retry_loop (attempt http rq read) attempt_numbers None tr)
     /\ is_ok (fst (f tr))
        = match fst (retry_loop (attempt http rq read) attempt_numbers
                       None tr) with
          | inl _ => true
          | inr _ => negb raises
          end) ->
  retry_discipline http rq read raises f.
Proof.
  intros Hf tr. destruct (Hf tr) as [Hsnd Hfst].
  destruct (retry_loop_run http rq read MAX_RETRIES 1 None tr)
    as (failures & Hfails & Hloop).
  fold attempt_numbers in Hloop.
  destruct (retry_loop _ _ _ _) as [[v|l] tr'].
  - destruct Hloop as (Hlt & -> & Hv). exists failures, true.
    cbn [fst snd] in Hsnd, Hfst. rewrite Hsnd, Hfst.
    split; [reflexivity|]. split; [exact Hfails|].
    split; [split; [exact Hlt | unfold nth_attempt_ok; now rewrite Hv]|].
    split; [rewrite attempts_made_call; lia | reflexivity].
  - destruct Hloop as (-> & ->). exists MAX_RETRIES, false.
    cbn [fst snd] in Hsnd, Hfst. rewrite Hsnd, Hfst.
    unfold call_events. rewrite app_nil_r.
    split; [reflexivity|]. split; [exact Hfails|].
    split; [split; [reflexivity | now rewrite <- !app_assoc]|].
    split; [|reflexivity].
    fold (call_events rq MAX_RETRIES false).
    replace (failed_attempts rq 1 MAX_RETRIES)
      with (call_events rq MAX_RETRIES false)
      by (unfold call_events; now rewrite app_nil_r).
    rewrite attempts_made_call. lia.
Qed.

(** C7, as the code has it: each search strategy and each fetcher makes at
    most [MAX_RETRIES] attempts per call, one after the other until one
    gets through, and sleeps [BACKOFF_BASE * k] after every failed attempt
    number [k], the last one included.  The attempts that failed and the
    one that got through are those of the remote, so the events of a call
    are determined: when all [MAX_RETRIES] attempts fail the call ends on
    the sleep of [BACKOFF_BASE * MAX_RETRIES], and only then do the search
    strategies and the content fetcher raise, the outline fetcher returning
    normally in every case. *)
Theorem retry_ceiling_and_backoff
    (http : trace -> request -> result json) (repr : json -> string)
    (query lang : string) (ttl : json) :
  retry_discipline http (action_search_request query lang)
    read_action_search true (resolve_title_action_search http query lang)
  /\ retry_discipline http (rest_search_request query lang)
       read_rest_search true (resolve_title_rest_search http query lang)
  /\ retry_discipline http (extract_request ttl lang)
       (read_extract ttl) true (fetch_plaintext_extract http ttl lang)
  /\ retry_discipline http (sections_request ttl lang)
       (read_sections repr) false (fetch_sections http repr ttl lang).
Proof.
  repeat split.
  - apply retry_discipline_of_loop. intros tr.
    unfold resolve_title_action_search.
    now destruct (retry_loop _ _ _ _) as [[v|l] tr'].
  - apply retry_discipline_of_loop. intros tr.
    unfold resolve_title_rest_search.
    now destruct (retry_loop _ _ _ _) as [[v|l] tr'].
  - apply retry_discipline_of_loop. intros tr.
    unfold fetch_plaintext_extract.
    now destruct (retry_loop _ _ _ _) as [[v|l] tr'].
  - apply retry_discipline_of_loop. intros tr.
    unfold fetch_sections.
    now destruct (retry_loop _ _ _ _) as [[v|l] tr'].
Qed.

(** C7 as stated fails: when every attempt fails, the third and last attempt
    is still followed by a sleep of 2100 ms, after which the call raises. *)
Lemma backoff_follows_last_attempt :
  snd (resolve_title_action_search Sample.down "x" "en" [])
  = failed_attempts (action_search_request "x" "en") 1 3
  /\ last (snd (resolve_title_action_search Sample.down "x" "en" []))
          (EvSleep 0) = EvSleep 2100
  /\ ~ sleeps_between_attempts_only
        (resolve_title_action_search Sample.down "x" "en").
Proof.
  split; [reflexivity|]. split; [reflexivity|].
  intros H. destruct (H []) as (evs & Hev & _ & Hs).
  cbn [app] in Hev. subst evs. vm_compute in Hs. discriminate.
Qed.

(** ** Title resolution *)

Lemma call_events_In (rq : request) (failures : nat) (returned : bool)
    (e : event) :
  In e (call_events rq failures returned) ->
  e = EvGet rq \/ exists ms, e = EvSleep ms.
Proof.
  unfold call_events. rewrite in_app_iff. intros [H|H].
  - generalize dependent 1. induction failures as [|k IH]; intros from H.
    + destruct H.
    + destruct H as [<-|[<-|H]]; eauto.
  - destruct returned; [|destruct H].
    destruct H as [<-|[]]. now left.
Qed.

Lemma search_requests_differ (query lang : string) :
  rest_search_request query lang <> action_search_request query lang.
Proof.
  intros H. apply (f_equal rq_params) in H. discriminate.
Qed.

Lemma read_action_search_no_hits (data : json) :
  no_hits data -> read_action_search data = Ok JNull.
Proof.
  intros (q & hits & Hq & Hh & Ht). unfold read_action_search.
  rewrite Hq. cbn [bind_result]. rewrite Hh. cbn [bind_result].
  now rewrite Ht.
Qed.

(** C2: when the primary strategy returns a title that is not empty,
    [resolve_title] returns it and no request of the secondary strategy is
    made; when the primary strategy returns without a title (no hit),
    [resolve_title] is the secondary strategy, whatever that gives.  A search
    document without hits makes the primary strategy return [None]. *)
Theorem resolve_title_fallback
    (http : trace -> request -> result json) (query lang : string)
    (tr tr' : trace) (ttl : json) :
  resolve_title_action_search http query lang tr = (Ok ttl, tr') ->
  (Py.truthy ttl = true ->
     resolve_title http query lang tr = (Ok ttl, tr')
     /\ exists evs,
          tr' = tr ++ evs
          /\ ~ In (EvGet (rest_search_request query lang)) evs)
  /\ (Py.truthy ttl = false ->
        resolve_title http query lang tr
        = resolve_title_rest_search http query lang tr')
  /\ (forall data, no_hits data -> read_action_search data = Ok JNull).
Proof.
  intros Hprim. split; [|split].
  - intros Ht. split.
    + unfold resolve_title. now rewrite Hprim, Ht.
    + destruct (call_shape http (action_search_request query lang)
                  read_action_search tr)
        as (failures & returned & Hev & _ & _).
      exists (call_events (action_search_request query lang) failures returned).
      split.
      * rewrite <- Hev. unfold resolve_title_action_search in Hprim.
        destruct (retry_loop _ _ _ _) as [[v|l] t]; now inversion Hprim.
      * intros Hin. apply call_events_In in Hin.
        destruct Hin as [Heq|[ms Heq]]; [|discriminate].
        apply (search_requests_differ query lang). congruence.
  - intros Ht. unfold resolve_title. now rewrite Hprim, Ht.
  - apply read_action_search_no_hits.
Qed.

Lemma resolve_title_fallback_witness :
  resolve_title Sample.einstein "Albert Einstein" "en" []
  = (Ok (JStr "Albert Einstein"),
     [EvGet (action_search_request "Albert Einstein" "en")])
  /\ resolve_title Sample.unknown "zzzz" "en" []
     = resolve_title_rest_search Sample.unknown "zzzz" "en"
         [EvGet (action_search_request "zzzz" "en")].
Proof.
  split.
  - apply (resolve_title_fallback Sample.einstein "Albert Einstein" "en" []
             [EvGet (action_search_request "Albert Einstein" "en")]
             (JStr "Albert Einstein")); reflexivity.
  - apply (resolve_title_fallback Sample.unknown "zzzz" "en" []
             [EvGet (action_search_request "zzzz" "en")] JNull); reflexivity.
Defined.

(** ** Canonical URLs *)

Lemma quote_byte_url_chars (c : ascii) :
  forallb PyStr.url_char (PyStr.quote_byte c) = true.
Proof.
  destruct c as [[] [] [] [] [] [] [] []]; reflexivity.
Qed.

(** [quote] yields unreserved characters, [/] and [%] only; in particular
    no space. *)
Lemma quote_url_chars (s : string) :
  forallb PyStr.url_char (list_ascii_of_string (PyStr.quote s)) = true.
Proof.
  unfold PyStr.quote. rewrite list_ascii_of_string_of_list_ascii.
  induction (list_ascii_of_string s) as [|c l IH]; [reflexivity|].
  cbn [flat_map]. rewrite forallb_app, IH, quote_byte_url_chars. reflexivity.
Qed.

Example canonical_url_demo :
  canonical_url "en" (JStr "Albert Einstein")
  = Ok "https://en.wikipedia.org/wiki/Albert_Einstein"
  /\ canonical_url "fr" (JStr "Été 36?")
     = Ok "https://fr.wikipedia.org/wiki/%C3%89t%C3%A9_36%3F".
Proof. split; reflexivity. Qed.

Section UrlInvariant.

Variable Net : Type.
Variable repr : json -> string.
Variable resolve : string -> string -> Net -> result json * Net.
Variable fetchExtract :
  json -> string -> Net -> result (json * json * json) * Net.
Variable fetchOutline : json -> string -> Net -> result (list string) * Net.
Variable lang : string.

Lemma emit_canonical (text norm_title : json) (toc : list string)
    (w : world Net) :
  all_canonical lang w -> all_canonical lang (snd (emit lang text norm_title toc w)).
Proof.
  intros Hw. unfold emit.
  destruct (canonical_url lang norm_title) as [u|e] eqn:Hu; [|exact Hw].
  assert (Hnew : all_canonical lang (write (mkRecord u norm_title toc text) w)).
  { unfold all_canonical, write. cbn [data_txt]. apply Forall_app. split; [exact Hw|].
    constructor; [|constructor]. split; [exact Hu|].
    destruct norm_title; try discriminate. cbn in Hu. injection Hu as <-.
    now exists s. }
  now destruct (Py.has_len text).
Qed.

Lemma process_row_canonical (cell : json) (w : world Net) :
  all_canonical lang w ->
  all_canonical lang (snd (process_row repr resolve fetchExtract fetchOutline
                    lang cell w)).
Proof.
  intros Hw. unfold process_row.
  destruct (keyword repr cell =? ""); [exact Hw|].
  unfold process_query, fetch_and_emit.
  destruct (resolve_stage _ _ _ _) as [ttl n1].
  destruct (content_stage _ _ _ _) as [[[text norm_title] pageid] n2].
  destruct (outline_stage _ _ _ _) as [toc n3].
  now apply emit_canonical.
Qed.

Lemma rows_loop_canonical (rows : list json) :
  forall w,
    all_canonical lang w ->
    all_canonical lang (snd (rows_loop repr resolve fetchExtract fetchOutline
                      lang rows w)).
Proof.
  induction rows as [|cell rest IH]; intros w Hw; [exact Hw|].
  cbn [rows_loop].
  pose proof (process_row_canonical cell w Hw) as Hrow.
  destruct (process_row _ _ _ _ _ _ _) as [[u|e] w']; [|exact Hrow].
  now apply IH.
Qed.

(** C3: whatever the three steps do, every record of [data.txt] has as
    [url] the canonical URL of the language and of its own [title]: the
    title with spaces replaced by underscores, percent-encoded, after
    [https://<lang>.wikipedia.org/wiki/]. *)
Theorem record_url_canonical (df : list json) (w : world Net) :
  Forall (url_is_canonical lang)
    (data_txt (snd (fetch_and_write_ndjson repr resolve fetchExtract
                      fetchOutline df lang w))).
Proof.
  unfold fetch_and_write_ndjson. apply rows_loop_canonical.
  unfold all_canonical, open_w. cbn [data_txt]. constructor.
Qed.

End UrlInvariant.

(** ** One record per keyword *)

Section EveryQueryWritten.

Variable Net : Type.
Variable repr : json -> string.
Variable resolve : string -> string -> Net -> result (option string) * Net.
Variable fetchExtract :
  json -> string -> Net -> result (string * string * option Z) * Net.
Variable fetchOutline : json -> string -> Net -> result (list string) * Net.
Variable lang : string.

Lemma or_str (t query : string) :
  Py.or (JStr t) (JStr query) = JStr (if t =? "" then query else t).
Proof. unfold Py.or, Py.truthy. now destruct (t =? ""). Qed.

Lemma process_query_typed (query : string) (w : world Net) :
  process_query (typed_resolve resolve) (typed_extract fetchExtract)
    fetchOutline lang query w
  = let (r, n') := spec_record resolve fetchExtract fetchOutline lang query
                     (net w) in
    (Ok tt, pause (write r (set_net w n'))).
Proof.
  unfold process_query, fetch_and_emit, resolve_stage,
    content_stage, outline_stage, spec_record, typed_resolve, typed_extract.
  destruct (resolve query lang (net w)) as [[[t|]|e] n1];
    cbn [bind_result of_optional_str]; cbv beta iota zeta;
    [ rewrite or_str; set (ttl := if t =? "" then query else t)
    | change (Py.or JNull (JStr query)) with (JStr query)
    | change (Py.or JNull (JStr query)) with (JStr query) ];
    destruct (fetchExtract _ lang n1) as [[[[text norm] pid]|e'] n2];
    cbn [bind_result]; cbv beta iota zeta;
    destruct (fetchOutline _ lang n2) as [[toc|e''] n3]; reflexivity.
Qed.

Lemma rows_loop_typed (rows : list json) :
  forall w,
    rows_loop repr (typed_resolve resolve) (typed_extract fetchExtract)
      fetchOutline lang rows w
    = let (rs, n') := spec_records resolve fetchExtract fetchOutline lang
                        (queries repr rows) (net w) in
      (Ok tt, mkWorld n' (data_txt w ++ rs) (journal w ++ spec_journal rs)).
Proof.
  induction rows as [|cell rest IH]; intros w.
  - cbn. rewrite !app_nil_r. now destruct w.
  - cbn [rows_loop]. unfold process_row, queries. cbn [map filter].
    fold (queries repr rest).
    destruct (keyword repr cell =? "") eqn:Hblank; cbn [negb].
    + apply IH.
    + rewrite process_query_typed. cbn [spec_records].
      destruct (spec_record _ _ _ _ _ _) as [r n1].
      rewrite IH. cbn [pause write set_net net data_txt journal].
      destruct (spec_records _ _ _ _ _ _) as [rs n2].
      cbn [spec_journal flat_map app].
      now rewrite <- !app_assoc.
Qed.

Lemma spec_records_length (qs : list string) :
  forall n,
    List.length (fst (spec_records resolve fetchExtract fetchOutline lang
                        qs n))
    = List.length qs.
Proof.
  induction qs as [|q rest IH]; intros n; [reflexivity|].
  cbn [spec_records]. destruct (spec_record _ _ _ _ _ _) as [r n1].
  specialize (IH n1). destruct (spec_records _ _ _ _ _ _) as [rs n2].
  cbn in *. now rewrite IH.
Qed.

(** C1: for every list of keywords and for all steps that return values of
    their declared types or raise, the run ends normally and [data.txt]
    holds exactly one record for each keyword that is not blank, in input
    order, each one the record of the per-query state machine run after its
    predecessors; the orchestrator writes and then sleeps once per record. *)
Theorem every_query_written (df : list json) (w : world Net) :
  let run :=
    fetch_and_write_ndjson repr (typed_resolve resolve)
      (typed_extract fetchExtract) fetchOutline df lang w in
  let expected :=
    fst (spec_records resolve fetchExtract fetchOutline lang
           (queries repr df) (net w)) in
  fst run = Ok tt
  /\ data_txt (snd run) = expected
  /\ List.length (data_txt (snd run)) = List.length (queries repr df)
  /\ journal (snd run) = journal w ++ spec_journal expected.
Proof.
  cbn zeta. unfold fetch_and_write_ndjson.
  rewrite rows_loop_typed. cbn [open_w net data_txt journal].
  pose proof (spec_records_length (queries repr df) (net w)) as Hlen.
  destruct (spec_records _ _ _ _ _ _) as [rs n']. cbn in *.
  repeat split; auto.
Qed.

End EveryQueryWritten.

(** ** Blank keywords *)

(** C8: a row whose keyword is empty once stripped changes nothing: no
    record, no delay, no request; the loop goes on with the next row. *)
Theorem blank_keyword_skipped (Net : Type) (repr : json -> string)
    (resolve : string -> string -> Net -> result json * Net)
    (fetchExtract : json -> string -> Net -> result (json * json * json) * Net)
    (fetchOutline : json -> string -> Net -> result (list string) * Net)
    (lang : string) (cell : json) (rest : list json) (w : world Net) :
  keyword repr cell = "" ->
  process_row repr resolve fetchExtract fetchOutline lang cell w = (Ok tt, w)
  /\ rows_loop repr resolve fetchExtract fetchOutline lang (cell :: rest) w
     = rows_loop repr resolve fetchExtract fetchOutline lang rest w.
Proof.
  intros Hblank.
  assert (Hrow : process_row repr resolve fetchExtract fetchOutline lang
                   cell w = (Ok tt, w)).
  { unfold process_row. now rewrite Hblank. }
  split; [exact Hrow|]. cbn [rows_loop]. now rewrite Hrow.
Qed.

Lemma blank_keyword_skipped_witness :
  process_row Sample.repr (resolve_title Sample.einstein)
    (fetch_plaintext_extract Sample.einstein)
    (fetch_sections Sample.einstein Sample.repr) "en" (JStr " 	  ")
    Sample.stale
  = (Ok tt, Sample.stale)
  /\ rows_loop Sample.repr (resolve_title Sample.einstein)
       (fetch_plaintext_extract Sample.einstein)
       (fetch_sections Sample.einstein Sample.repr) "en"
       [JStr " 	  "; JStr "Albert Einstein"] Sample.stale
     = rows_loop Sample.repr (resolve_title Sample.einstein)
         (fetch_plaintext_extract Sample.einstein)
         (fetch_sections Sample.einstein Sample.repr) "en"
         [JStr "Albert Einstein"] Sample.stale.
Proof.
  apply (blank_keyword_skipped trace Sample.repr
           (resolve_title Sample.einstein)
           (fetch_plaintext_extract Sample.einstein)
           (fetch_sections Sample.einstein Sample.repr) "en" (JStr " 	  ")
           [JStr "Albert Einstein"] Sample.stale).
  reflexivity.
Defined.

(** ** Fallback to the query *)

(** C5: when title resolution raises or returns no title, the effective
    title is the query itself: the extract step is called with it, and if
    that step raises too the record carries the query as its title and
    the canonical URL of the query. *)
Theorem query_is_fallback_title (Net : Type)
    (resolve : string -> string -> Net -> result json * Net)
    (fetchExtract : json -> string -> Net -> result (json * json * json) * Net)
    (fetchOutline : json -> string -> Net -> result (list string) * Net)
    (lang query : string) (w : world Net) (r : result json) (n1 : Net) :
  resolve query lang (net w) = (r, n1) ->
  no_title r ->
  resolve_stage resolve lang query (net w) = (JStr query, n1)
  /\ process_query resolve fetchExtract fetchOutline lang query w
     = fetch_and_emit fetchExtract fetchOutline lang (JStr query) n1 w
  /\ (forall e n2,
        fetchExtract (JStr query) lang n1 = (Raise e, n2) ->
        exists toc n3,
          outline_stage fetchOutline lang (JStr query) n2 = (toc, n3)
          /\ process_query resolve fetchExtract fetchOutline lang query w
             = (Ok tt,
                pause (write
                         (mkRecord
                            ("https://" ++ lang ++ ".wikipedia.org/wiki/"
                               ++ PyStr.quote (PyStr.replace_space query))%string
                            (JStr query) toc (JStr ""))
                         (set_net w n3)))).
Proof.
  intros Hres Hnone.
  assert (Hstage : resolve_stage resolve lang query (net w)
                   = (JStr query, n1)).
  { unfold resolve_stage. rewrite Hres. destruct r as [v|e]; [|reflexivity].
    cbn in Hnone. unfold Py.or. now rewrite Hnone. }
  assert (Hquery : process_query resolve fetchExtract fetchOutline lang
                     query w
                   = fetch_and_emit fetchExtract fetchOutline lang
                       (JStr query) n1 w).
  { unfold process_query. now rewrite Hstage. }
  split; [exact Hstage|]. split; [exact Hquery|].
  intros e n2 Hex. rewrite Hquery. unfold fetch_and_emit, content_stage.
  rewrite Hex.
  destruct (outline_stage fetchOutline lang (JStr query) n2) as [toc n3].
  now exists toc, n3.
Qed.

Lemma query_is_fallback_title_witness :
  resolve_stage (resolve_title Sample.down) "en" "zzzznonexistentqueryxyz" []
  = (JStr "zzzznonexistentqueryxyz",
     snd (resolve_title Sample.down "zzzznonexistentqueryxyz" "en" []))
  /\ resolve_stage (resolve_title Sample.unknown) "en"
       "zzzznonexistentqueryxyz" []
     = (JStr "zzzznonexistentqueryxyz",
        snd (resolve_title Sample.unknown "zzzznonexistentqueryxyz" "en" [])).
Proof.
  split.
  - apply (query_is_fallback_title trace (resolve_title Sample.down)
             (fetch_plaintext_extract Sample.down)
             (fetch_sections Sample.down Sample.repr)
             "en" "zzzznonexistentqueryxyz" Sample.fresh
             (fst (resolve_title Sample.down "zzzznonexistentqueryxyz" "en" []))).
    + reflexivity.
    + exact I.
  - apply (query_is_fallback_title trace (resolve_title Sample.unknown)
             (fetch_plaintext_extract Sample.unknown)
             (fetch_sections Sample.unknown Sample.repr)
             "en" "zzzznonexistentqueryxyz" Sample.fresh (Ok JNull)).
    + reflexivity.
    + reflexivity.
Defined.

(** ** The outline fetcher *)

Lemma retry_loop_always_fails (http : trace -> request -> result json)
    {A : Type} (rq : request) (read : json -> result A) :
  always_fails http rq read ->
  forall atts last tr,
    exists l tr', retry_loop (attempt http rq read) atts last tr = (inr l, tr').
Proof.
  intros Hfail atts.
  induction atts as [|n atts IH]; intros last tr.
  - now exists last, tr.
  - cbn [retry_loop]. specialize (Hfail tr).
    destruct (attempt http rq read tr) as [[v|e] tr1]; [discriminate|].
    apply IH.
Qed.

Lemma fetch_sections_returns (http : trace -> request -> result json)
    (repr : json -> string) (ttl : json) (lang : string) (tr : trace) :
  exists toc, fst (fetch_sections http repr ttl lang tr) = Ok toc.
Proof.
  unfold fetch_sections.
  destruct (retry_loop _ _ _ _) as [[toc|l] tr']; cbn [fst]; eauto.
Qed.

Lemma attempts_fail_exhausts (http : trace -> request -> result json)
    {A : Type} (rq : request) (read : json -> result A) (tr : trace) :
  attempts_fail http rq read tr ->
  exists l,
    retry_loop (attempt http rq read) attempt_numbers None tr
    = (inr l, tr ++ failed_attempts rq 1 MAX_RETRIES).
Proof.
  intros Hfail.
  destruct (retry_loop_run http rq read MAX_RETRIES 1 None tr)
    as (failures & _ & Hloop).
  fold attempt_numbers in Hloop.
  destruct (retry_loop _ _ _ _) as [[v|l] tr'].
  - destruct Hloop as (Hlt & _ & Hv). specialize (Hfail failures Hlt).
    unfold nth_attempt_ok in Hfail. rewrite Hv in Hfail. discriminate.
  - destruct Hloop as (_ & ->). now exists l.
Qed.

(** C4: [fetch_sections] never raises; when each of its [MAX_RETRIES]
    attempts fails it returns the empty list.  The line that the
    orchestrator then appends to [data.txt] has [table_of_contents = []];
    its [url], [title] and [raw_text] are those the extract stage
    determined, and the run goes on as after any other record. *)
Theorem outline_failure_absorbed (http : trace -> request -> result json)
    (repr : json -> string) (lang : string) :
  (forall ttl tr, exists toc, fst (fetch_sections http repr ttl lang tr) = Ok toc)
  /\ (forall ttl tr,
        attempts_fail http (sections_request ttl lang) (read_sections repr)
          tr ->
        fetch_sections http repr ttl lang tr
        = (Ok [],
           tr ++ failed_attempts (sections_request ttl lang) 1 MAX_RETRIES))
  /\ (forall query w ttl n1 text norm pageid n2 u,
        resolve_stage (resolve_title http) lang query (net w) = (ttl, n1) ->
        content_stage (fetch_plaintext_extract http) lang ttl n1
        = ((text, norm, pageid), n2) ->
        canonical_url lang norm = Ok u ->
        attempts_fail http (sections_request norm lang) (read_sections repr)
          n2 ->
        let res :=
          process_query (resolve_title http) (fetch_plaintext_extract http)
            (fetch_sections http repr) lang query w in
        data_txt (snd res) = data_txt w ++ [mkRecord u norm [] text]
        /\ net (snd res)
           = n2 ++ failed_attempts (sections_request norm lang) 1 MAX_RETRIES
        /\ (Py.has_len text = true ->
            fst res = Ok tt
            /\ journal (snd res)
               = journal w ++ [Wrote (mkRecord u norm [] text);
                               Slept DELAY_BETWEEN_REQUESTS])).
Proof.
  assert (Hgives_up : forall ttl tr,
            attempts_fail http (sections_request ttl lang)
              (read_sections repr) tr ->
            fetch_sections http repr ttl lang tr
            = (Ok [],
               tr ++ failed_attempts (sections_request ttl lang) 1
                       MAX_RETRIES)).
  { intros ttl tr Hfail. unfold fetch_sections.
    now destruct (attempts_fail_exhausts http _ _ tr Hfail) as [l ->]. }
  split; [|split].
  - intros ttl tr. apply fetch_sections_returns.
  - exact Hgives_up.
  - intros query w ttl n1 text norm pageid n2 u Hres Hcontent Hurl Hfail.
    cbn zeta. unfold process_query, fetch_and_emit. rewrite Hres, Hcontent.
    unfold outline_stage. rewrite (Hgives_up norm n2 Hfail).
    unfold emit. rewrite Hurl.
    destruct (Py.has_len text); cbn [fst snd write pause set_net data_txt
                                      net journal].
    + split; [reflexivity|]. split; [reflexivity|]. intros _.
      split; [reflexivity|]. now rewrite <- app_assoc.
    + split; [reflexivity|]. split; [reflexivity|]. discriminate.
Qed.

Lemma outline_failure_absorbed_witness :
  fetch_sections Sample.no_outline Sample.repr (JStr "Albert Einstein")
    "en" []
  = (Ok [],
     [] ++ failed_attempts (sections_request (JStr "Albert Einstein") "en") 1
             MAX_RETRIES)
  /\ data_txt
       (snd (process_query (resolve_title Sample.no_outline)
               (fetch_plaintext_extract Sample.no_outline)
               (fetch_sections Sample.no_outline Sample.repr) "en"
               "Albert Einstein" Sample.stale))
     = data_txt Sample.stale
         ++ [mkRecord "https://en.wikipedia.org/wiki/Albert_Einstein"
               (JStr "Albert Einstein") [] (JStr "Albert Einstein was...")].
Proof.
  destruct (outline_failure_absorbed Sample.no_outline Sample.repr "en")
    as (_ & Hempty & Hrecord).
  split.
  - apply Hempty. intros j Hj. reflexivity.
  - apply (Hrecord "Albert Einstein" Sample.stale (JStr "Albert Einstein")
             [EvGet (action_search_request "Albert Einstein" "en")]
             (JStr "Albert Einstein was...") (JStr "Albert Einstein")
             (JNum 736)
             [EvGet (action_search_request "Albert Einstein" "en");
              EvGet (extract_request (JStr "Albert Einstein") "en")]
             "https://en.wikipedia.org/wiki/Albert_Einstein").
    + reflexivity.
    + reflexivity.
    + reflexivity.
    + intros j Hj. reflexivity.
Defined.

(** ** The content fetcher *)

Lemma read_extract_no_pages (ttl data : json) :
  no_pages data -> read_extract ttl data = Ok (JStr "", ttl, JNull).
Proof.
  intros (q & pages & Hq & Hp & Ht). unfold read_extract.
  rewrite Hq. cbn [bind_result]. rewrite Hp. cbn [bind_result].
  now rewrite Ht.
Qed.

Lemma read_extract_first_page (ttl data q : json)
    (kvs : list (string * json)) (rest : list json) :
  Py.get data "query" (JObj []) = Ok q ->
  Py.get q "pages" (JArr []) = Ok (JArr (JObj kvs :: rest)) ->
  read_extract ttl data
  = Ok (Py.or (lookup "extract" kvs) (JStr ""), page_title ttl kvs,
        lookup "pageid" kvs).
Proof.
  intros Hq Hp. unfold read_extract.
  rewrite Hq. cbn [bind_result]. rewrite Hp. reflexivity.
Qed.

(** C6, as the code has it.  An answer of the extract endpoint that can be
    read is a normal result, also after failed attempts below the ceiling.
    When the document lists no page the result is the empty text, the
    title that was given and no page id.  When it lists a page entry
    without extract, as the API does for a title that has no article, the
    result is the empty text and the page id of the entry if it has one,
    but the title is the one of the entry; the title that was given is
    used only when the entry has none.  When the function raises, all
    [MAX_RETRIES] attempts were made and failed. *)
Theorem extract_not_found (http : trace -> request -> result json)
    (ttl : json) (lang : string) (tr : trace) :
  (forall k last tr1 data v,
     k < MAX_RETRIES ->
     retry_loop (attempt http (extract_request ttl lang) (read_extract ttl))
       (seq 1 k) None tr = (inr last, tr1) ->
     http tr1 (extract_request ttl lang) = Ok data ->
     read_extract ttl data = Ok v ->
     fetch_plaintext_extract http ttl lang tr
     = (Ok v, tr1 ++ [EvGet (extract_request ttl lang)]))
  /\ (forall data,
        no_pages data -> read_extract ttl data = Ok (JStr "", ttl, JNull))
  /\ (forall data q kvs rest,
        Py.get data "query" (JObj []) = Ok q ->
        Py.get q "pages" (JArr []) = Ok (JArr (JObj kvs :: rest)) ->
        Py.truthy (lookup "extract" kvs) = false ->
        read_extract ttl data
        = Ok (JStr "", page_title ttl kvs, lookup "pageid" kvs))
  /\ (forall e tr',
        fetch_plaintext_extract http ttl lang tr = (Raise e, tr') ->
        tr' = tr ++ failed_attempts (extract_request ttl lang) 1 MAX_RETRIES
        /\ exists last_exc,
             e = RuntimeError "Extract failed for" ttl (Some last_exc)).
Proof.
  split; [|split; [|split]].
  - intros k last tr1 data v Hk Hpre Hdata Hread.
    unfold fetch_plaintext_extract, attempt_numbers.
    replace MAX_RETRIES with (k + S (MAX_RETRIES - S k)) by lia.
    rewrite seq_app, (retry_loop_app _ _ _ _ _ _ _ _ _ Hpre).
    cbn [seq retry_loop]. rewrite attempt_unfold, Hdata. cbn [bind_result].
    now rewrite Hread.
  - apply read_extract_no_pages.
  - intros data q kvs rest Hq Hp Hfalse.
    rewrite (read_extract_first_page ttl data q kvs rest Hq Hp).
    unfold Py.or. now rewrite Hfalse.
  - intros e tr' Hraise. unfold fetch_plaintext_extract in Hraise.
    pose proof (retry_loop_shape http (extract_request ttl lang)
                  (read_extract ttl) MAX_RETRIES 1 None tr) as [f Hf].
    fold attempt_numbers in Hf.
    destruct (retry_loop _ _ _ _) as [[v|l] t] eqn:Hloop; [discriminate|].
    injection Hraise as <- <-. destruct Hf as [_ ->]. split; [reflexivity|].
    apply retry_loop_exhausted in Hloop.
    destruct Hloop as [[Habs _]|[e ->]]; [discriminate|]. now exists e.
Qed.

Lemma extract_not_found_witness :
  fetch_plaintext_extract Sample.flaky (JStr "zzzz") "en" []
  = (Ok (JStr "", JStr "zzzz", JNull),
     failed_attempts (extract_request (JStr "zzzz") "en") 1 2
       ++ [EvGet (extract_request (JStr "zzzz") "en")])
  /\ read_extract (JStr "zzzz") (Sample.extract_doc [])
     = Ok (JStr "", JStr "zzzz", JNull)
  /\ read_extract (JStr "zzzz") missing_page_doc
     = Ok (JStr "",
           page_title (JStr "zzzz")
             [("title", JStr "Zzzz"); ("missing", JBool true)],
           lookup "pageid" [("title", JStr "Zzzz"); ("missing", JBool true)])
  /\ (failed_attempts (extract_request (JStr "zzzz") "en") 1 3
      = [] ++ failed_attempts (extract_request (JStr "zzzz") "en") 1
                MAX_RETRIES
      /\ exists last_exc,
           RuntimeError "Extract failed for" (JStr "zzzz")
             (Some (RequestError "connection refused"))
           = RuntimeError "Extract failed for" (JStr "zzzz") (Some last_exc)).
Proof.
  destruct (extract_not_found Sample.flaky (JStr "zzzz") "en" [])
    as (Hreturn & Hnone & Hentry & _).
  destruct (extract_not_found Sample.down (JStr "zzzz") "en" [])
    as (_ & _ & _ & Hraise).
  split; [|split; [|split]].
  - apply (Hreturn 2 (Some (RequestError "timeout"))
             (failed_attempts (extract_request (JStr "zzzz") "en") 1 2)
             (Sample.extract_doc [])).
    + unfold MAX_RETRIES. lia.
    + reflexivity.
    + reflexivity.
    + reflexivity.
  - apply Hnone.
    exists (JObj [("pages", JArr [])]), (JArr []). repeat split.
  - apply (Hentry missing_page_doc
             (JObj [("pages",
                     JArr [JObj [("title", JStr "Zzzz");
                                 ("missing", JBool true)]])])
             [("title", JStr "Zzzz"); ("missing", JBool true)] []);
      reflexivity.
  - apply (Hraise
             (RuntimeError "Extract failed for" (JStr "zzzz")
                (Some (RequestError "connection refused")))
             (failed_attempts (extract_request (JStr "zzzz") "en") 1 3)).
    reflexivity.
Defined.

(** C6 as stated fails: for the title [zzzz], which has no article, the
    endpoint answers with a page entry marked missing under the normalised
    title [Zzzz]; [fetch_plaintext_extract] returns normally with the empty
    text and no page id, but with the title [Zzzz], not the one it was
    given. *)
Lemma missing_page_keeps_server_title :
  article_not_found missing_page_doc
  /\ fetch_plaintext_extract no_article (JStr "zzzz") "en" []
     = (Ok (JStr "", JStr "Zzzz", JNull),
        [EvGet (extract_request (JStr "zzzz") "en")])
  /\ ~ (forall http ttl lang tr data,
          http tr (extract_request ttl lang) = Ok data ->
          article_not_found data ->
          fst (fetch_plaintext_extract http ttl lang tr)
          = Ok (JStr "", ttl, JNull)).
Proof.
  assert (Hnf : article_not_found missing_page_doc).
  { right.
    exists (JObj [("pages",
                   JArr [JObj [("title", JStr "Zzzz");
                               ("missing", JBool true)]])]),
      [("title", JStr "Zzzz"); ("missing", JBool true)], [].
    repeat split. }
  split; [exact Hnf|]. split; [reflexivity|].
  intros H.
  specialize (H no_article (JStr "zzzz") "en" [] missing_page_doc
                eq_refl Hnf).
  vm_compute in H. discriminate H.
Qed.

(** ** Running again *)

Section RunningAgain.

Variable Net : Type.
Variable repr : json -> string.
Variable resolve : string -> string -> Net -> result json * Net.
Variable fetchExtract :
  json -> string -> Net -> result (json * json * json) * Net.
Variable fetchOutline : json -> string -> Net -> result (list string) * Net.
Variable lang : string.

Hypothesis resolve_stable : stable_results resolve.
Hypothesis extract_stable : stable_results fetchExtract.
Hypothesis outline_stable : stable_results fetchOutline.

Lemma emit_same_file (text norm_title : json) (toc : list string)
    (w1 w2 : world Net) :
  data_txt w1 = data_txt w2 ->
  same_file (emit lang text norm_title toc w1)
            (emit lang text norm_title toc w2).
Proof.
  intros Hfile. unfold emit, same_file.
  destruct (canonical_url lang norm_title) as [u|e]; [|now split].
  destruct (Py.has_len text); cbn; now rewrite Hfile.
Qed.

Lemma process_query_same_file (query : string) (w1 w2 : world Net) :
  data_txt w1 = data_txt w2 ->
  same_file (process_query resolve fetchExtract fetchOutline lang query w1)
            (process_query resolve fetchExtract fetchOutline lang query w2).
Proof.
  intros Hfile.
  unfold process_query, fetch_and_emit, resolve_stage, content_stage,
    outline_stage.
  pose proof (resolve_stable query lang (net w1) (net w2)) as H1.
  destruct (resolve query lang (net w1)) as [r1 a1].
  destruct (resolve query lang (net w2)) as [r1' a2].
  cbn [fst] in H1. subst r1'.
  set (ttl := Py.or match r1 with Ok v => v | Raise _ => JNull end (JStr query)).
  pose proof (extract_stable ttl lang a1 a2) as H2.
  destruct (fetchExtract ttl lang a1) as [r2 b1].
  destruct (fetchExtract ttl lang a2) as [r2' b2].
  cbn [fst] in H2. subst r2'.
  destruct (match r2 with Ok v => v | Raise _ => (JStr "", ttl, JNull) end)
    as [[text norm_title] pageid].
  pose proof (outline_stable norm_title lang b1 b2) as H3.
  destruct (fetchOutline norm_title lang b1) as [r3 c1].
  destruct (fetchOutline norm_title lang b2) as [r3' c2].
  cbn [fst] in H3. subst r3'.
  now apply emit_same_file.
Qed.

Lemma rows_loop_same_file (rows : list json) :
  forall w1 w2,
    data_txt w1 = data_txt w2 ->
    same_file (rows_loop repr resolve fetchExtract fetchOutline lang rows w1)
              (rows_loop repr resolve fetchExtract fetchOutline lang rows w2).
Proof.
  induction rows as [|cell rest IH]; intros w1 w2 Hfile.
  - now split.
  - cbn [rows_loop]. unfold process_row.
    destruct (keyword repr cell =? "").
    + now apply IH.
    + pose proof (process_query_same_file (keyword repr cell) w1 w2 Hfile)
        as [Hres Hdata].
      destruct (process_query _ _ _ _ _ w1) as [[u1|e1] w1'];
        destruct (process_query _ _ _ _ _ w2) as [[u2|e2] w2'];
        cbn [fst snd] in Hres, Hdata; try discriminate.
      * now apply IH.
      * now split.
Qed.

(** C9: when the three steps give the same results each time they are
    called, a second run on the same keywords ends as the first one did and
    leaves in [data.txt] exactly the lines of the first run, neither
    appended to nor merged with them; more generally the lines written do
    not depend on what the file held before or on what the steps did
    before. *)
Theorem rerun_same_output (df : list json) (w : world Net) :
  let run := fetch_and_write_ndjson repr resolve fetchExtract fetchOutline
               df lang in
  (fst (run (snd (run w))) = fst (run w)
   /\ data_txt (snd (run (snd (run w)))) = data_txt (snd (run w)))
  /\ (forall w', fst (run w') = fst (run w)
                 /\ data_txt (snd (run w')) = data_txt (snd (run w))).
Proof.
  cbn zeta.
  assert (Hany : forall w1 w2,
             same_file
               (fetch_and_write_ndjson repr resolve fetchExtract fetchOutline
                  df lang w1)
               (fetch_and_write_ndjson repr resolve fetchExtract fetchOutline
                  df lang w2)).
  { intros w1 w2. unfold fetch_and_write_ndjson.
    now apply rows_loop_same_file. }
  split; [apply Hany | intros w'; apply Hany].
Qed.

End RunningAgain.

(** The steps of the program are stable when the remote is steady. *)

Lemma retry_loop_steady (http : trace -> request -> result json) {A : Type}
    (rq : request) (read : json -> result A) :
  steady http ->
  forall atts last tr tr',
    fst (retry_loop (attempt http rq read) atts last tr)
    = fst (retry_loop (attempt http rq read) atts last tr').
Proof.
  intros Hst atts.
  induction atts as [|n atts IH]; intros last tr tr'; [reflexivity|].
  cbn [retry_loop]. rewrite !attempt_unfold, (Hst tr tr' rq).
  destruct (data <- http tr' rq ;; read data) as [v|e]; [reflexivity|].
  apply IH.
Qed.

Lemma action_search_stable (http : trace -> request -> result json) :
  steady http -> stable_results (resolve_title_action_search http).
Proof.
  intros Hst query lang tr tr'. unfold resolve_title_action_search.
  pose proof (retry_loop_steady http (action_search_request query lang)
                read_action_search Hst attempt_numbers None tr tr') as H.
  destruct (retry_loop _ _ _ tr) as [[v|l] t];
    destruct (retry_loop _ _ _ tr') as [[v'|l'] t'];
    cbn [fst] in *; congruence.
Qed.

Lemma rest_search_stable (http : trace -> request -> result json) :
  steady http -> stable_results (resolve_title_rest_search http).
Proof.
  intros Hst query lang tr tr'. unfold resolve_title_rest_search.
  pose proof (retry_loop_steady http (rest_search_request query lang)
                read_rest_search Hst attempt_numbers None tr tr') as H.
  destruct (retry_loop _ _ _ tr) as [[v|l] t];
    destruct (retry_loop _ _ _ tr') as [[v'|l'] t'];
    cbn [fst] in *; congruence.
Qed.

Lemma resolve_title_stable (http : trace -> request -> result json) :
  steady http -> stable_results (resolve_title http).
Proof.
  intros Hst query lang tr tr'. unfold resolve_title.
  pose proof (action_search_stable http Hst query lang tr tr') as H.
  destruct (resolve_title_action_search http query lang tr) as [r t].
  destruct (resolve_title_action_search http query lang tr') as [r' t'].
  cbn [fst] in H. subst r'. destruct r as [v|e]; [|reflexivity].
  destruct (Py.truthy v); [reflexivity|].
  apply (rest_search_stable http Hst).
Qed.

Lemma fetch_plaintext_extract_stable (http : trace -> request -> result json) :
  steady http -> stable_results (fetch_plaintext_extract http).
Proof.
  intros Hst ttl lang tr tr'. unfold fetch_plaintext_extract.
  pose proof (retry_loop_steady http (extract_request ttl lang)
                (read_extract ttl) Hst attempt_numbers None tr tr') as H.
  destruct (retry_loop _ _ _ tr) as [[v|l] t];
    destruct (retry_loop _ _ _ tr') as [[v'|l'] t'];
    cbn [fst] in *; congruence.
Qed.

Lemma fetch_sections_stable (http : trace -> request -> result json)
    (repr : json -> string) :
  steady http -> stable_results (fetch_sections http repr).
Proof.
  intros Hst ttl lang tr tr'. unfold fetch_sections.
  pose proof (retry_loop_steady http (sections_request ttl lang)
                (read_sections repr) Hst attempt_numbers None tr tr') as H.
  destruct (retry_loop _ _ _ tr) as [[v|l] t];
    destruct (retry_loop _ _ _ tr') as [[v'|l'] t'];
    cbn [fst] in *; congruence.
Qed.

Lemma einstein_steady : steady Sample.einstein.
Proof. intros tr tr' rq. reflexivity. Qed.

Lemma rerun_same_output_witness :
  let run := run_pipeline Sample.einstein Sample.repr
               [JStr "Albert Einstein"; JStr "  "; JStr "Einstein"] "en" in
  (fst (run (snd (run Sample.stale))) = fst (run Sample.stale)
   /\ data_txt (snd (run (snd (run Sample.stale))))
      = data_txt (snd (run Sample.stale)))
  /\ (forall w', fst (run w') = fst (run Sample.stale)
                 /\ data_txt (snd (run w')) = data_txt (snd (run Sample.stale))).
Proof.
  apply (rerun_same_output trace Sample.repr (resolve_title Sample.einstein)
           (fetch_plaintext_extract Sample.einstein)
           (fetch_sections Sample.einstein Sample.repr) "en"
           (resolve_title_stable _ einstein_steady)
           (fetch_plaintext_extract_stable _ einstein_steady)
           (fetch_sections_stable _ Sample.repr einstein_steady)).
Defined.

(** ** Section headings *)

Lemma section_name_dict (kvs : list (string * json)) :
  section_name (JObj kvs)
  = Ok (Py.or (lookup "line" kvs) (Py.or (lookup "anchor" kvs) (JStr ""))).
Proof.
  unfold section_name, lookup, Py.get, Py.or. cbn [bind_result].
  destruct (Py.truthy match Py.assoc "line" kvs with
                      | Some v => v
                      | None => JNull
                      end); reflexivity.
Qed.

Lemma section_name_not_dict (s : json) :
  (forall kvs, s <> JObj kvs) -> section_name s = Raise AttributeError.
Proof.
  intros H. destruct s; try reflexivity. now destruct (H kvs).
Qed.

Lemma collect_toc_spec (repr : json -> string) (items : list json) :
  forall toc,
    collect_toc repr items toc
    = (names <- section_names items ;; Ok (toc ++ spec_toc repr names)).
Proof.
  induction items as [|s rest IH]; intros toc.
  - cbn. now rewrite app_nil_r.
  - cbn [collect_toc section_names].
    destruct (section_name s) as [name|e]; [|reflexivity].
    cbn [bind_result]. rewrite !IH.
    destruct (section_names rest) as [names|e]; cbn [bind_result];
      [|now destruct (negb _)].
    unfold spec_toc. cbn [map filter].
    destruct (negb (PyStr.strip (py_str repr name) =? "")); [|reflexivity].
    now rewrite <- app_assoc.
Qed.

Lemma spec_toc_nonempty (repr : json -> string) (names : list json) :
  Forall (fun name => name <> "") (spec_toc repr names).
Proof.
  apply Forall_forall. intros name Hin. unfold spec_toc in Hin.
  apply filter_In in Hin. destruct Hin as [_ Hne].
  intros ->. discriminate.
Qed.

Lemma read_sections_spec (repr : json -> string) (data : json) :
  read_sections repr data
  = (names <- document_names data ;; Ok (spec_toc repr names)).
Proof.
  unfold read_sections, document_names.
  destruct (Py.get data "parse" (JObj [])) as [p|e]; [|reflexivity].
  cbn [bind_result].
  destruct (Py.get p "sections" (JArr [])) as [sections|e]; [|reflexivity].
  cbn [bind_result].
  destruct (Py.iter sections) as [items|e]; [|reflexivity].
  cbn [bind_result]. rewrite collect_toc_spec.
  now destruct (section_names items).
Qed.

(** C10: every element of the list [fetch_sections] returns is a string that
    is not empty, and the list is the one of the document read in this
    call.  Reading a document gives, for each section in order, [line], or
    [anchor] when [line] is missing (or false), or the empty string; the
    name is turned into a string and stripped, and names left empty are
    dropped.  The list returned is that of the first attempt that gets
    through; it is empty for another reason only when each of the
    [MAX_RETRIES] attempts fails. *)
Theorem toc_entries_nonempty (http : trace -> request -> result json)
    (repr : json -> string) (ttl : json) (lang : string) (tr : trace) :
  (exists toc,
     fst (fetch_sections http repr ttl lang tr) = Ok toc
     /\ Forall (fun name => name <> "") toc
     /\ ((exists failures data names,
            failures < MAX_RETRIES
            /\ (forall j, j < failures ->
                  nth_attempt_ok http (sections_request ttl lang)
                    (read_sections repr) tr j = false)
            /\ http (tr ++ failed_attempts (sections_request ttl lang) 1
                             failures)
                  (sections_request ttl lang) = Ok data
            /\ document_names data = Ok names
            /\ toc = spec_toc repr names)
         \/ (attempts_fail http (sections_request ttl lang)
               (read_sections repr) tr
             /\ toc = [])))
  /\ (forall data,
        read_sections repr data
        = (names <- document_names data ;; Ok (spec_toc repr names)))
  /\ (forall kvs,
        section_name (JObj kvs)
        = Ok (Py.or (lookup "line" kvs)
                (Py.or (lookup "anchor" kvs) (JStr ""))))
  /\ (forall data names,
        http tr (sections_request ttl lang) = Ok data ->
        document_names data = Ok names ->
        fetch_sections http repr ttl lang tr
        = (Ok (spec_toc repr names),
           tr ++ [EvGet (sections_request ttl lang)])).
Proof.
  split; [|split; [apply read_sections_spec|split; [apply section_name_dict|]]].
  - unfold fetch_sections.
    destruct (retry_loop_run http (sections_request ttl lang)
                (read_sections repr) MAX_RETRIES 1 None tr)
      as (failures & Hfails & Hloop).
    fold attempt_numbers in Hloop.
    destruct (retry_loop _ _ _ tr) as [[toc|l] tr']; cbn [fst].
    + destruct Hloop as (Hlt & _ & Hv).
      rewrite attempt_unfold in Hv. cbn [fst] in Hv.
      destruct (http (tr ++ failed_attempts (sections_request ttl lang) 1
                              failures)
                  (sections_request ttl lang)) as [data|e] eqn:Hdata;
        [|discriminate].
      cbn [bind_result] in Hv. rewrite read_sections_spec in Hv.
      destruct (document_names data) as [names|e] eqn:Hn; [|discriminate].
      cbn [bind_result] in Hv. injection Hv as <-.
      exists (spec_toc repr names). split; [reflexivity|].
      split; [apply spec_toc_nonempty|].
      left. exists failures, data, names. now repeat split.
    + destruct Hloop as (-> & _).
      exists []. split; [reflexivity|]. split; [constructor|].
      right. split; [|reflexivity]. intros j Hj. now apply Hfails.
  - intros data names Hdata Hn. unfold fetch_sections.
    unfold attempt_numbers, MAX_RETRIES. cbn [seq retry_loop].
    rewrite attempt_unfold, Hdata. cbn [bind_result].
    rewrite read_sections_spec, Hn. reflexivity.
Qed.

Lemma toc_entries_nonempty_witness :
  fetch_sections Sample.einstein Sample.repr (JStr "Albert Einstein") "en" []
  = (Ok (spec_toc Sample.repr
           [JStr "Early life"; JStr " Career "; JStr "  "]),
     [] ++ [EvGet (sections_request (JStr "Albert Einstein") "en")]).
Proof.
  destruct (toc_entries_nonempty Sample.einstein Sample.repr
              (JStr "Albert Einstein") "en" []) as (_ & _ & _ & Hforward).
  apply (Hforward
           (Sample.sections_doc
              [JObj [("line", JStr "Early life");
                     ("anchor", JStr "Early_life")];
               JObj [("anchor", JStr " Career ")];
               JObj [("line", JStr "  ")]])).
  - reflexivity.
  - reflexivity.
Defined.

Example toc_demo :
  fst (fetch_sections Sample.einstein Sample.repr (JStr "Albert Einstein")
         "en" [])
  = Ok ["Early life"; "Career"].
Proof. reflexivity. Qed.

(** ** The scenarios of the specification *)

Example einstein_scenario :
  data_txt (snd (run_pipeline Sample.einstein Sample.repr
                   [JStr "Albert Einstein"] "en" Sample.stale))
  = [mkRecord "https://en.wikipedia.org/wiki/Albert_Einstein"
       (JStr "Albert Einstein") ["Early life"; "Career"]
       (JStr "Albert Einstein was...")].
Proof. reflexivity. Qed.

Example unknown_scenario :
  data_txt (snd (run_pipeline Sample.unknown Sample.repr
                   [JStr "zzzznonexistentqueryxyz"] "en" Sample.fresh))
  = [mkRecord "https://en.wikipedia.org/wiki/zzzznonexistentqueryxyz"
       (JStr "zzzznonexistentqueryxyz") [] (JStr "")].
Proof. reflexivity. Qed.

Example outage_scenario :
  let run := run_pipeline Sample.down Sample.repr
               [JStr "a b"; JStr ""; JStr " c "] "en" Sample.fresh in
  fst run = Ok tt
  /\ data_txt (snd run)
     = [mkRecord "https://en.wikipedia.org/wiki/a_b" (JStr "a b") [] (JStr "");
        mkRecord "https://en.wikipedia.org/wiki/c" (JStr "c") [] (JStr "")]
  /\ journal (snd run)
     = spec_journal (data_txt (snd run))
  /\ attempts_made (net (snd run)) = 18.
Proof. cbn zeta. repeat split; reflexivity. Qed.

(** A page that the remote marks as missing is still a page: the title comes
    from the document, the text is empty and there is no page id. *)
Example missing_page_entry :
  read_extract (JStr "zzzz")
    (Sample.extract_doc [JObj [("title", JStr "Zzzz"); ("missing", JBool true)]])
  = Ok (JStr "", JStr "Zzzz", JNull).
Proof. reflexivity. Qed.

(** Values outside the annotated types are not guarded against: a title
    that is not a string makes [canonical_url] raise, and nothing catches
    it. *)
Example ill_typed_title_aborts :
  let run := run_pipeline Sample.ill_typed Sample.repr [JStr "a"; JStr "b"]
               "en" Sample.fresh in
  fst run = Raise AttributeError /\ data_txt (snd run) = [].
Proof. cbn zeta. split; reflexivity. Qed.

(** * Further properties *)

(** ** Title resolution, continued *)

(** X1: when the primary strategy gives up, [resolve_title] raises the same
    exception at once: the secondary strategy is not tried, the events of
    the call being the [MAX_RETRIES] failed attempts of the primary one. *)
Theorem resolve_title_primary_exhausted
    (http : trace -> request -> result json) (query lang : string)
    (tr tr' : trace) (e : exn) :
  resolve_title_action_search http query lang tr = (Raise e, tr') ->
  resolve_title http query lang tr = (Raise e, tr')
  /\ tr' = tr ++ failed_attempts (action_search_request query lang) 1
                   MAX_RETRIES
  /\ exists last_exc,
       e = RuntimeError "Action search failed for" (JStr query)
             (Some last_exc).
Proof.
  intros Hprim. split.
  - unfold resolve_title. now rewrite Hprim.
  - unfold resolve_title_action_search in Hprim.
    pose proof (retry_loop_shape http (action_search_request query lang)
                  read_action_search MAX_RETRIES 1 None tr) as [f Hf].
    fold attempt_numbers in Hf.
    destruct (retry_loop _ _ _ _) as [[v|l] t] eqn:Hloop; [discriminate|].
    injection Hprim as <- <-. destruct Hf as [_ ->]. split; [reflexivity|].
    apply retry_loop_exhausted in Hloop.
    destruct Hloop as [[Habs _]|[e ->]]; [discriminate|]. now exists e.
Qed.

Lemma resolve_title_primary_exhausted_witness :
  resolve_title Sample.down "x" "en" []
  = (Raise (RuntimeError "Action search failed for" (JStr "x")
              (Some (RequestError "connection refused"))),
     failed_attempts (action_search_request "x" "en") 1 3).
Proof.
  apply (resolve_title_primary_exhausted Sample.down "x" "en" []
           (failed_attempts (action_search_request "x" "en") 1 3)
           (RuntimeError "Action search failed for" (JStr "x")
              (Some (RequestError "connection refused")))).
  reflexivity.
Defined.

(** ** Documents without the expected key *)

Lemma first_attempt_returns (http : trace -> request -> result json)
    {A : Type} (rq : request) (read : json -> result A) (tr : trace)
    (data : json) (v : A) :
  http tr rq = Ok data ->
  read data = Ok v ->
  retry_loop (attempt http rq read) attempt_numbers None tr
  = (inl v, tr ++ [EvGet rq]).
Proof.
  intros Hdata Hread. unfold attempt_numbers, MAX_RETRIES.
  cbn [seq retry_loop]. rewrite attempt_unfold, Hdata. cbn [bind_result].
  now rewrite Hread.
Qed.

(** X2: a document that is a dict but lacks the key the function looks for
    (as an error document of the API does) is an empty answer, not a
    failure: the call returns after this one request, without retrying,
    with no title, the empty extract under the title given, or the empty
    outline. *)
Theorem missing_key_is_empty_answer
    (http : trace -> request -> result json) (repr : json -> string)
    (query lang : string) (ttl : json) (tr : trace)
    (kvs : list (string * json)) :
  (http tr (action_search_request query lang) = Ok (JObj kvs) ->
   Py.assoc "query" kvs = None ->
   resolve_title_action_search http query lang tr
   = (Ok JNull, tr ++ [EvGet (action_search_request query lang)]))
  /\ (http tr (rest_search_request query lang) = Ok (JObj kvs) ->
      Py.assoc "pages" kvs = None ->
      resolve_title_rest_search http query lang tr
      = (Ok JNull, tr ++ [EvGet (rest_search_request query lang)]))
  /\ (http tr (extract_request ttl lang) = Ok (JObj kvs) ->
      Py.assoc "query" kvs = None ->
      fetch_plaintext_extract http ttl lang tr
      = (Ok (JStr "", ttl, JNull), tr ++ [EvGet (extract_request ttl lang)]))
  /\ (http tr (sections_request ttl lang) = Ok (JObj kvs) ->
      Py.assoc "parse" kvs = None ->
      fetch_sections http repr ttl lang tr
      = (Ok [], tr ++ [EvGet (sections_request ttl lang)])).
Proof.
  repeat split; intros Hdata Hkey.
  - unfold resolve_title_action_search.
    rewrite (first_attempt_returns http _ _ tr (JObj kvs) JNull Hdata);
      [reflexivity|].
    unfold read_action_search, Py.get. now rewrite Hkey.
  - unfold resolve_title_rest_search.
    rewrite (first_attempt_returns http _ _ tr (JObj kvs) JNull Hdata);
      [reflexivity|].
    unfold read_rest_search, Py.get. now rewrite Hkey.
  - unfold fetch_plaintext_extract.
    rewrite (first_attempt_returns http _ _ tr (JObj kvs)
               (JStr "", ttl, JNull) Hdata); [reflexivity|].
    unfold read_extract, Py.get. now rewrite Hkey.
  - unfold fetch_sections.
    rewrite (first_attempt_returns http _ _ tr (JObj kvs) [] Hdata);
      [reflexivity|].
    unfold read_sections, Py.get. now rewrite Hkey.
Qed.

Lemma missing_key_is_empty_answer_witness :
  fetch_sections Sample.unknown Sample.repr (JStr "zzzz") "en" []
  = (Ok [], [] ++ [EvGet (sections_request (JStr "zzzz") "en")]).
Proof.
  apply (missing_key_is_empty_answer Sample.unknown Sample.repr "zzzz" "en"
           (JStr "zzzz") [] [("error", JObj [])]); reflexivity.
Defined.

(** ** Malformed sections *)

Lemma collect_toc_non_dict (repr : json -> string) (items : list json) :
  forall toc,
    forallb is_dict items = false ->
    collect_toc repr items toc = Raise AttributeError.
Proof.
  induction items as [|s rest IH]; intros toc Hbad; [discriminate|].
  cbn [collect_toc]. cbn [forallb] in Hbad.
  destruct s; try reflexivity.
  cbn [is_dict andb] in Hbad. rewrite section_name_dict. cbn [bind_result].
  destruct (negb _); now apply IH.
Qed.

(** X3: one section entry that is not a dict spoils the whole document:
    reading it raises, whatever the other entries hold, so that the attempt
    counts as failed (and is followed by its backoff sleep) instead of
    yielding the headings that could be read. *)
Theorem malformed_section_fails_attempt
    (http : trace -> request -> result json) (repr : json -> string)
    (ttl : json) (lang : string) (tr : trace) (data p : json)
    (items : list json) :
  http tr (sections_request ttl lang) = Ok data ->
  Py.get data "parse" (JObj []) = Ok p ->
  Py.get p "sections" (JArr []) = Ok (JArr items) ->
  forallb is_dict items = false ->
  read_sections repr data = Raise AttributeError
  /\ attempt http (sections_request ttl lang) (read_sections repr) tr
     = (Raise AttributeError, tr ++ [EvGet (sections_request ttl lang)]).
Proof.
  intros Hdata Hp Hs Hbad.
  assert (Hread : read_sections repr data = Raise AttributeError).
  { unfold read_sections. rewrite Hp. cbn [bind_result]. rewrite Hs.
    cbn [bind_result Py.iter]. now apply collect_toc_non_dict. }
  split; [exact Hread|].
  rewrite attempt_unfold, Hdata. cbn [bind_result]. now rewrite Hread.
Qed.

Lemma malformed_section_fails_attempt_witness :
  read_sections Sample.repr
    (Sample.sections_doc [JObj [("line", JStr "History")]; JStr "Career"])
  = Raise AttributeError
  /\ attempt (fun _ _ =>
                Ok (Sample.sections_doc
                      [JObj [("line", JStr "History")]; JStr "Career"]))
       (sections_request (JStr "T") "en") (read_sections Sample.repr) []
     = (Raise AttributeError, [] ++ [EvGet (sections_request (JStr "T") "en")]).
Proof.
  apply (malformed_section_fails_attempt
           (fun _ _ =>
              Ok (Sample.sections_doc
                    [JObj [("line", JStr "History")]; JStr "Career"]))
           Sample.repr (JStr "T") "en" []
           (Sample.sections_doc
              [JObj [("line", JStr "History")]; JStr "Career"])
           (JObj [("sections",
                   JArr [JObj [("line", JStr "History")]; JStr "Career"])])
           [JObj [("line", JStr "History")]; JStr "Career"]);
    reflexivity.
Defined.

(** ** How a run can end *)

Section RunOutcome.

Variable Net : Type.
Variable repr : json -> string.
Variable resolve : string -> string -> Net -> result json * Net.
Variable fetchExtract :
  json -> string -> Net -> result (json * json * json) * Net.
Variable fetchOutline : json -> string -> Net -> result (list string) * Net.
Variable lang : string.

Lemma canonical_url_raises (ttl : json) (e : exn) :
  canonical_url lang ttl = Raise e -> e = AttributeError /\ is_str ttl = false.
Proof.
  destruct ttl; cbn; intros H; try discriminate; injection H as <-; now split.
Qed.

Lemma emit_outcome (text norm_title : json) (toc : list string)
    (w : world Net) :
  let res := emit lang text norm_title toc w in
  net (snd res) = net w
  /\ ((fst res = Ok tt
       /\ exists r,
            data_txt (snd res) = data_txt w ++ [r]
            /\ journal (snd res)
               = journal w ++ [Wrote r; Slept DELAY_BETWEEN_REQUESTS])
      \/ (fst res = Raise AttributeError
          /\ data_txt (snd res) = data_txt w
          /\ journal (snd res) = journal w)
      \/ (fst res = Raise TypeError
          /\ exists r,
               data_txt (snd res) = data_txt w ++ [r]
               /\ journal (snd res) = journal w ++ [Wrote r]
               /\ Py.has_len (raw_text r) = false)).
Proof.
  cbn zeta. unfold emit.
  destruct (canonical_url lang norm_title) as [u|e] eqn:Hu.
  - destruct (Py.has_len text) eqn:Hlen; cbn [fst snd].
    + split; [reflexivity|]. left. split; [reflexivity|].
      exists (mkRecord u norm_title toc text). cbn.
      split; [reflexivity|]. now rewrite <- app_assoc.
    + split; [reflexivity|]. right. right. split; [reflexivity|].
      exists (mkRecord u norm_title toc text). cbn. now repeat split.
  - apply canonical_url_raises in Hu. destruct Hu as [-> _].
    split; [reflexivity|]. right. left. now repeat split.
Qed.

Lemma process_query_outcome (query : string) (w : world Net) :
  let res := process_query resolve fetchExtract fetchOutline lang query w in
  (fst res = Ok tt
   /\ exists r,
        data_txt (snd res) = data_txt w ++ [r]
        /\ journal (snd res)
           = journal w ++ [Wrote r; Slept DELAY_BETWEEN_REQUESTS])
  \/ (fst res = Raise AttributeError
      /\ data_txt (snd res) = data_txt w
      /\ journal (snd res) = journal w)
  \/ (fst res = Raise TypeError
      /\ exists r,
           data_txt (snd res) = data_txt w ++ [r]
           /\ journal (snd res) = journal w ++ [Wrote r]
           /\ Py.has_len (raw_text r) = false).
Proof.
  cbn zeta. unfold process_query, fetch_and_emit.
  destruct (resolve_stage _ _ _ _) as [ttl n1].
  destruct (content_stage _ _ _ _) as [[[text norm_title] pageid] n2].
  destruct (outline_stage _ _ _ _) as [toc n3].
  apply (emit_outcome text norm_title toc (set_net w n3)).
Qed.

Lemma spec_journal_cons (r : ArticleRecord) (rs : list ArticleRecord) :
  spec_journal (r :: rs)
  = [Wrote r; Slept DELAY_BETWEEN_REQUESTS] ++ spec_journal rs.
Proof. reflexivity. Qed.

Lemma rows_loop_outcome (rows : list json) :
  forall w,
    let res := rows_loop repr resolve fetchExtract fetchOutline lang rows w in
    exists rs delta,
      data_txt (snd res) = data_txt w ++ rs
      /\ journal (snd res) = journal w ++ delta
      /\ run_outcome (fst res) rs delta (List.length (queries repr rows)).
Proof.
  induction rows as [|cell rest IH]; intros w; cbn zeta.
  - exists [], []. cbn. rewrite !app_nil_r. now repeat split.
  - cbn [rows_loop]. unfold process_row, queries. cbn [map filter].
    fold (queries repr rest).
    destruct (keyword repr cell =? "") eqn:Hblank; cbn [negb].
    + apply IH.
    + pose proof (process_query_outcome (keyword repr cell) w) as Hq.
      cbn zeta in Hq.
      destruct (process_query _ _ _ _ _ w) as [res w1]. cbn [fst snd] in Hq.
      cbn [List.length].
      destruct Hq as [[-> (r & Hd & Hj)]
                     |[[-> (Hd & Hj)]
                      |[-> (r & Hd & Hj & Hlen)]]].
      * destruct (IH w1) as (rs & delta & Hd' & Hj' & Hout).
        exists (r :: rs), ([Wrote r; Slept DELAY_BETWEEN_REQUESTS] ++ delta).
        rewrite Hd', Hj', Hd, Hj. rewrite <- !app_assoc.
        split; [reflexivity|]. split; [reflexivity|].
        destruct (fst (rows_loop _ _ _ _ _ rest w1)) as [u|e]; cbn in *.
        -- destruct Hout as [-> <-]. now split.
        -- destruct Hout as [(-> & -> & Hlt)
                            |(-> & rs0 & r0 & -> & -> & Hl & Hle)].
           ++ left. repeat split; try reflexivity; lia.
           ++ right. split; [reflexivity|]. exists (r :: rs0), r0.
              repeat split; try reflexivity; try assumption; cbn; lia.
      * exists [], []. cbn [fst snd]. rewrite !app_nil_r.
        split; [exact Hd|]. split; [exact Hj|].
        left. repeat split; try reflexivity; cbn; lia.
      * exists [r], [Wrote r]. cbn [fst snd].
        split; [exact Hd|]. split; [exact Hj|].
        right. split; [reflexivity|]. exists [], r.
        repeat split; try reflexivity; try assumption; cbn; lia.
Qed.

Lemma writes_of_app (a b : list action) :
  writes_of (a ++ b) = writes_of a ++ writes_of b.
Proof.
  induction a as [|[r|ms] a IH]; cbn; [reflexivity| |exact IH].
  now rewrite IH.
Qed.

Lemma writes_of_spec_journal (rs : list ArticleRecord) :
  writes_of (spec_journal rs) = rs.
Proof.
  induction rs as [|r rs IH]; [reflexivity|].
  rewrite spec_journal_cons. cbn [app writes_of]. now rewrite IH.
Qed.

(** X4: whatever the three steps return or raise, a run ends in one of three
    ways.  Normally: one line per keyword that is not blank, each write
    followed by the delay.  With [AttributeError], before the line of some
    keyword is written ([canonical_url] met a title that is not a string):
    the lines of the earlier keywords are there, each with its delay.  With
    [TypeError], right after a line is written whose [raw_text] has no
    length: that line is the last one and no delay follows it.  In every
    case [data.txt] holds exactly the records written during this run, in
    order, and never more than one per keyword. *)
Theorem run_outcome_any_steps (df : list json) (w : world Net) :
  let run := fetch_and_write_ndjson repr resolve fetchExtract fetchOutline
               df lang w in
  exists delta,
    journal (snd run) = journal w ++ delta
    /\ data_txt (snd run) = writes_of delta
    /\ run_outcome (fst run) (data_txt (snd run)) delta
         (List.length (queries repr df))
    /\ List.length (data_txt (snd run)) <= List.length (queries repr df).
Proof.
  cbn zeta. unfold fetch_and_write_ndjson.
  destruct (rows_loop_outcome df (open_w w)) as (rs & delta & Hd & Hj & Hout).
  cbn zeta in Hd, Hj, Hout. cbn [open_w data_txt journal app] in Hd, Hj.
  exists delta. rewrite Hd. split; [exact Hj|].
  destruct (fst (rows_loop _ _ _ _ _ df (open_w w))) as [u|e]; cbn in Hout |- *.
  - destruct Hout as [-> <-]. rewrite writes_of_spec_journal.
    repeat split; lia.
  - destruct Hout as [(-> & -> & Hlt)|(-> & rs0 & r0 & -> & -> & Hl & Hle)].
    + rewrite writes_of_spec_journal. split; [reflexivity|].
      split; [|lia]. left. now repeat split.
    + rewrite writes_of_app, writes_of_spec_journal. split; [reflexivity|].
      split; [|lia]. right. split; [reflexivity|]. exists rs0, r0.
      now repeat split.
Qed.

(** X5: when no keyword is left after stripping (an empty column, or blank
    cells only), the run calls no step and does not sleep, but it has
    opened [data.txt] for writing: the file is empty afterwards, whatever
    it held before. *)
Theorem no_keyword_empties_file (df : list json) (w : world Net) :
  queries repr df = [] ->
  fetch_and_write_ndjson repr resolve fetchExtract fetchOutline df lang w
  = (Ok tt, mkWorld (net w) [] (journal w)).
Proof.
  unfold fetch_and_write_ndjson. fold (open_w w).
  generalize (open_w w). induction df as [|cell rest IH]; intros w0 Hq.
  - reflexivity.
  - cbn [rows_loop]. unfold process_row. unfold queries in Hq.
    cbn [map filter] in Hq.
    destruct (keyword repr cell =? ""); cbn [negb] in Hq; [|discriminate].
    now apply IH.
Qed.

End RunOutcome.

Lemma no_keyword_empties_file_witness :
  run_pipeline Sample.einstein Sample.repr [JStr "  "; JStr ""] "en"
    Sample.stale
  = (Ok tt, mkWorld [] [] []).
Proof.
  apply (no_keyword_empties_file trace Sample.repr
           (resolve_title Sample.einstein)
           (fetch_plaintext_extract Sample.einstein)
           (fetch_sections Sample.einstein Sample.repr) "en"
           [JStr "  "; JStr ""] Sample.stale).
  reflexivity.
Defined.

(** ** Stripping *)

Section DropWs.

Variable back : bool.

Lemma drop_ws_suffix (n : nat) :
  forall l, List.length l <= n ->
    exists pre, l = pre ++ PyStr.drop_ws back l.
Proof.
  induction n as [|n IH]; intros l Hlen.
  - destruct l; [now exists [] | cbn in Hlen; lia].
  - destruct l as [|a t]; [now exists []|]. cbn [PyStr.drop_ws].
    cbn in Hlen.
    destruct (PyStr.ws1 a).
    { destruct (IH t ltac:(lia)) as [pre Hpre]. exists (a :: pre).
      cbn. now rewrite <- Hpre. }
    destruct t as [|b t2]; [now exists []|]. cbn in Hlen.
    destruct (if back then PyStr.ws2 b a else PyStr.ws2 a b).
    { destruct (IH t2 ltac:(lia)) as [pre Hpre]. exists (a :: b :: pre).
      cbn. now rewrite <- Hpre. }
    destruct t2 as [|c t3]; [now exists []|]. cbn in Hlen.
    destruct (if back then PyStr.ws3 c b a else PyStr.ws3 a b c).
    { destruct (IH t3 ltac:(lia)) as [pre Hpre]. exists (a :: b :: c :: pre).
      cbn. now rewrite <- Hpre. }
    now exists [].
Qed.

Lemma drop_ws_length (l : list ascii) :
  List.length (PyStr.drop_ws back l) <= List.length l.
Proof.
  destruct (drop_ws_suffix (List.length l) l (le_n _)) as [pre Hpre].
  rewrite Hpre at 2. rewrite length_app. lia.
Qed.

Lemma drop_ws_fixed (n : nat) :
  forall l, List.length l <= n ->
    PyStr.drop_ws back (PyStr.drop_ws back l) = PyStr.drop_ws back l.
Proof.
  induction n as [|n IH]; intros l Hlen.
  - destruct l; [reflexivity | cbn in Hlen; lia].
  - destruct l as [|a t]; [reflexivity|]. cbn [PyStr.drop_ws].
    cbn in Hlen.
    destruct (PyStr.ws1 a) eqn:E1; [apply IH; lia|].
    destruct t as [|b t2]; [cbn; now rewrite E1|]. cbn in Hlen.
    destruct (if back then PyStr.ws2 b a else PyStr.ws2 a b) eqn:E2;
      [apply IH; lia|].
    destruct t2 as [|c t3]; [cbn [PyStr.drop_ws]; now rewrite E1, E2|].
    cbn in Hlen.
    destruct (if back then PyStr.ws3 c b a else PyStr.ws3 a b c) eqn:E3;
      [apply IH; lia|].
    cbn [PyStr.drop_ws]. now rewrite E1, E2, E3.
Qed.

(** A sequence without white space in front keeps none when cut short. *)
Lemma drop_ws_prefix (p q : list ascii) :
  PyStr.drop_ws back (p ++ q) = p ++ q ->
  PyStr.drop_ws back p = p.
Proof.
  intros Hfix.
  assert (Hshort : forall k t, PyStr.drop_ws back t = k ++ p ++ q ->
                     List.length t < List.length (k ++ p ++ q) -> False).
  { intros k t Ht Hlt. pose proof (drop_ws_length t) as Hle.
    rewrite Ht in Hle. lia. }
  destruct p as [|a p1]; [reflexivity|].
  cbn [app PyStr.drop_ws] in Hfix |- *.
  destruct (PyStr.ws1 a).
  { exfalso. apply (Hshort [] _ Hfix). cbn. lia. }
  destruct p1 as [|b p2]; [reflexivity|]. cbn [app] in Hfix.
  destruct (if back then PyStr.ws2 b a else PyStr.ws2 a b).
  { exfalso. apply (Hshort [] _ Hfix). cbn. lia. }
  destruct p2 as [|c p3]; [reflexivity|]. cbn [app] in Hfix.
  destruct (if back then PyStr.ws3 c b a else PyStr.ws3 a b c).
  { exfalso. apply (Hshort [] _ Hfix). cbn. lia. }
  reflexivity.
Qed.

End DropWs.

Lemma strip_idempotent (s : string) :
  PyStr.strip (PyStr.strip s) = PyStr.strip s.
Proof.
  unfold PyStr.strip. rewrite list_ascii_of_string_of_list_ascii.
  set (A := PyStr.drop_ws false (list_ascii_of_string s)).
  set (B := PyStr.drop_ws true (rev A)).
  destruct (drop_ws_suffix true (List.length (rev A)) (rev A) (le_n _))
    as [pre Hpre].
  fold B in Hpre.
  assert (HA : A = rev B ++ rev pre).
  { rewrite <- rev_app_distr, <- Hpre. now rewrite rev_involutive. }
  assert (Hfront : PyStr.drop_ws false (rev B) = rev B).
  { apply (drop_ws_prefix false (rev B) (rev pre)). rewrite <- HA.
    apply (drop_ws_fixed false (List.length (list_ascii_of_string s))).
    apply le_n. }
  rewrite Hfront, rev_involutive.
  unfold B at 1.
  now rewrite (drop_ws_fixed true (List.length (rev A)) (rev A) (le_n _)).
Qed.

Lemma spec_toc_stripped (repr : json -> string) (names : list json) :
  Forall (fun name => name <> "" /\ PyStr.strip name = name)
         (spec_toc repr names).
Proof.
  apply Forall_forall. intros name Hin. unfold spec_toc in Hin.
  apply filter_In in Hin. destruct Hin as [Hin Hne].
  apply in_map_iff in Hin. destruct Hin as (x & <- & _).
  split; [|apply strip_idempotent].
  intros Heq. rewrite Heq in Hne. discriminate.
Qed.

Lemma queries_stripped (repr : json -> string) (df : list json) :
  Forall (fun q => q <> "" /\ PyStr.strip q = q) (queries repr df).
Proof.
  apply Forall_forall. intros q Hin. unfold queries in Hin.
  apply filter_In in Hin. destruct Hin as [Hin Hne].
  apply in_map_iff in Hin. destruct Hin as (cell & <- & _).
  split; [|apply strip_idempotent].
  intros Heq. rewrite Heq in Hne. discriminate.
Qed.

(** X6: a row is either skipped, or processed under a query that is not
    empty and carries no white space at either end: stripping it again
    changes nothing. *)
Theorem row_query_is_stripped (Net : Type) (repr : json -> string)
    (resolve : string -> string -> Net -> result json * Net)
    (fetchExtract : json -> string -> Net -> result (json * json * json) * Net)
    (fetchOutline : json -> string -> Net -> result (list string) * Net)
    (lang : string) (cell : json) (w : world Net) :
  process_row repr resolve fetchExtract fetchOutline lang cell w = (Ok tt, w)
  \/ exists query,
       query <> "" /\ PyStr.strip query = query
       /\ process_row repr resolve fetchExtract fetchOutline lang cell w
          = process_query resolve fetchExtract fetchOutline lang query w.
Proof.
  unfold process_row.
  destruct (keyword repr cell =? "") eqn:Hblank; [now left|].
  right. exists (keyword repr cell). split; [|split].
  - intros Heq. rewrite Heq in Hblank. discriminate.
  - unfold keyword. apply strip_idempotent.
  - reflexivity.
Qed.

(** ** Requests and backoff of the program *)

Lemma attempts_made_app (a b : list event) :
  attempts_made (a ++ b) = attempts_made a + attempts_made b.
Proof. unfold attempts_made. now rewrite filter_app, length_app. Qed.

Lemma backoff_ms_app (a b : list event) :
  backoff_ms (a ++ b) = (backoff_ms a + backoff_ms b)%Z.
Proof.
  induction a as [|[rq|ms] a IH]; cbn [app backoff_ms]; [reflexivity|exact IH|].
  rewrite IH. lia.
Qed.

Lemma within_nil : within 0 0 [].
Proof. unfold within. cbn. lia. Qed.

Lemma within_app (n1 n2 : nat) (m1 m2 : Z) (a b : list event) :
  within n1 m1 a -> within n2 m2 b -> within (n1 + n2) (m1 + m2) (a ++ b).
Proof.
  unfold within. rewrite attempts_made_app, backoff_ms_app. lia.
Qed.

Lemma within_weaken (n n' : nat) (m m' : Z) (evs : list event) :
  within n m evs -> n <= n' -> (m <= m')%Z -> within n' m' evs.
Proof. unfold within. lia. Qed.

Lemma call_within (rq : request) (failures : nat) (returned : bool) :
  (if returned then failures < MAX_RETRIES else failures = MAX_RETRIES) ->
  within MAX_RETRIES (BACKOFF_BASE * 6) (call_events rq failures returned)
  /\ In (EvGet rq) (call_events rq failures returned).
Proof.
  unfold MAX_RETRIES. intros H.
  destruct returned;
    destruct failures as [|[|[|[|k]]]]; try lia;
    (split; [unfold within; cbn; lia | cbn; tauto]).
Qed.

Lemma loop_adds (http : trace -> request -> result json) {A B : Type}
    (rq : request) (read : json -> result A) (f : M B) :
  (forall tr,
     snd (f tr) = snd (retry_loop (attempt http rq read) attempt_numbers
                         None tr)) ->
  adds (fun evs => within MAX_RETRIES (BACKOFF_BASE * 6) evs
                   /\ In (EvGet rq) evs) f.
Proof.
  intros Hf tr.
  destruct (call_shape http rq read tr) as (failures & returned & Hev & Hn & _).
  exists (call_events rq failures returned). rewrite Hf, Hev.
  split; [reflexivity|]. now apply call_within.
Qed.

Lemma action_search_adds (http : trace -> request -> result json)
    (query lang : string) :
  adds (fun evs => within MAX_RETRIES (BACKOFF_BASE * 6) evs
                   /\ In (EvGet (action_search_request query lang)) evs)
       (resolve_title_action_search http query lang).
Proof.
  apply (loop_adds http _ read_action_search). intros tr.
  unfold resolve_title_action_search.
  now destruct (retry_loop _ _ _ _) as [[v|l] tr'].
Qed.

Lemma rest_search_adds (http : trace -> request -> result json)
    (query lang : string) :
  adds (fun evs => within MAX_RETRIES (BACKOFF_BASE * 6) evs
                   /\ In (EvGet (rest_search_request query lang)) evs)
       (resolve_title_rest_search http query lang).
Proof.
  apply (loop_adds http _ read_rest_search). intros tr.
  unfold resolve_title_rest_search.
  now destruct (retry_loop _ _ _ _) as [[v|l] tr'].
Qed.

Lemma extract_adds (http : trace -> request -> result json)
    (ttl : json) (lang : string) :
  adds (fun evs => within MAX_RETRIES (BACKOFF_BASE * 6) evs
                   /\ In (EvGet (extract_request ttl lang)) evs)
       (fetch_plaintext_extract http ttl lang).
Proof.
  apply (loop_adds http _ (read_extract ttl)). intros tr.
  unfold fetch_plaintext_extract.
  now destruct (retry_loop _ _ _ _) as [[v|l] tr'].
Qed.

Lemma sections_adds (http : trace -> request -> result json)
    (repr : json -> string) (ttl : json) (lang : string) :
  adds (fun evs => within MAX_RETRIES (BACKOFF_BASE * 6) evs
                   /\ In (EvGet (sections_request ttl lang)) evs)
       (fetch_sections http repr ttl lang).
Proof.
  apply (loop_adds http _ (read_sections repr)). intros tr.
  unfold fetch_sections.
  now destruct (retry_loop _ _ _ _) as [[v|l] tr'].
Qed.

(** One call of [resolve_title] makes at least one and at most
    [2 * MAX_RETRIES] requests, and sleeps at most twice the backoff of one
    exhausted strategy ([BACKOFF_BASE * (1 + 2 + 3)] each); it only adds
    events to the trace. *)
Lemma resolve_title_adds (http : trace -> request -> result json)
    (query lang : string) :
  adds (fun evs => within (2 * MAX_RETRIES) (2 * (BACKOFF_BASE * 6)) evs
                   /\ In (EvGet (action_search_request query lang)) evs)
       (resolve_title http query lang).
Proof.
  intros tr. unfold resolve_title.
  destruct (action_search_adds http query lang tr) as (e1 & H1 & Hw1 & Hin1).
  destruct (resolve_title_action_search http query lang tr) as [[v|e] tr1];
    cbn [snd] in H1; subst tr1.
  - destruct (Py.truthy v).
    + exists e1. split; [reflexivity|]. split; [|exact Hin1].
      eapply within_weaken; [exact Hw1 | lia | unfold BACKOFF_BASE; lia].
    + destruct (rest_search_adds http query lang (tr ++ e1))
        as (e2 & H2 & Hw2 & _).
      exists (e1 ++ e2). rewrite H2, app_assoc. split; [reflexivity|].
      split; [|apply in_or_app; now left].
      eapply within_weaken; [exact (within_app _ _ _ _ _ _ Hw1 Hw2) | lia | lia].
  - exists e1. split; [reflexivity|]. split; [|exact Hin1].
    eapply within_weaken; [exact Hw1 | lia | unfold BACKOFF_BASE; lia].
Qed.

(** ** Records of the program *)

Lemma read_extract_text (ttl data text norm_title pageid : json) :
  read_extract ttl data = Ok (text, norm_title, pageid) ->
  text = JStr "" \/ Py.truthy text = true.
Proof.
  unfold read_extract.
  destruct (Py.get data "query" (JObj [])) as [q|e]; [|discriminate].
  cbn [bind_result].
  destruct (Py.get q "pages" (JArr [])) as [pages|e]; [|discriminate].
  cbn [bind_result].
  destruct (negb (Py.truthy pages)).
  - intros H. injection H as <- _ _. now left.
  - destruct (Py.getitem0 pages) as [page|e]; [|discriminate].
    cbn [bind_result].
    destruct (Py.get page "extract" JNull) as [extract|e]; [|discriminate].
    cbn [bind_result].
    destruct (Py.get page "title" ttl) as [t|e]; [|discriminate].
    cbn [bind_result].
    destruct (Py.get page "pageid" JNull) as [p|e]; [|discriminate].
    cbn [bind_result]. intros H. injection H as <- _ _.
    unfold Py.or. destruct (Py.truthy extract) eqn:Ht; [now right | now left].
Qed.

Lemma content_stage_text (http : trace -> request -> result json)
    (lang : string) (ttl : json) (n1 n2 : trace)
    (text norm_title pageid : json) :
  content_stage (fetch_plaintext_extract http) lang ttl n1
  = ((text, norm_title, pageid), n2) ->
  text = JStr "" \/ Py.truthy text = true.
Proof.
  unfold content_stage, fetch_plaintext_extract.
  destruct (retry_loop _ _ _ _) as [[v|l] t] eqn:Hloop; intros H.
  - apply retry_loop_returned in Hloop.
    destruct Hloop as (tr0 & data & _ & Hread).
    injection H as -> _. now apply read_extract_text in Hread.
  - injection H as <- _ _ _. now left.
Qed.

Lemma fetch_sections_stripped (http : trace -> request -> result json)
    (repr : json -> string) (ttl : json) (lang : string) (tr : trace)
    (toc : list string) :
  fst (fetch_sections http repr ttl lang tr) = Ok toc ->
  Forall (fun name => name <> "" /\ PyStr.strip name = name) toc.
Proof.
  unfold fetch_sections.
  destruct (retry_loop _ _ _ _) as [[v|l] t] eqn:Hloop; cbn [fst]; intros H;
    injection H as <-; [|constructor].
  apply retry_loop_returned in Hloop.
  destruct Hloop as (tr0 & data & _ & Hread).
  unfold read_sections in Hread.
  destruct (Py.get data "parse" (JObj [])) as [p|e]; [|discriminate].
  cbn [bind_result] in Hread.
  destruct (Py.get p "sections" (JArr [])) as [sections|e]; [|discriminate].
  cbn [bind_result] in Hread.
  destruct (Py.iter sections) as [items|e]; [|discriminate].
  cbn [bind_result] in Hread. rewrite collect_toc_spec in Hread.
  destruct (section_names items) as [names|e]; [|discriminate].
  cbn in Hread. injection Hread as <-. apply spec_toc_stripped.
Qed.

Lemma emit_written {Net : Type} (lang : string) (text norm_title : json)
    (toc : list string) (w : world Net) (r : ArticleRecord) :
  data_txt (snd (emit lang text norm_title toc w)) = data_txt w ++ [r] ->
  title r = norm_title /\ table_of_contents r = toc /\ raw_text r = text.
Proof.
  unfold emit. destruct (canonical_url lang norm_title) as [u|e].
  - assert (Hd : data_txt w ++ [mkRecord u norm_title toc text]
                 = data_txt w ++ [r] ->
                 title r = norm_title /\ table_of_contents r = toc
                 /\ raw_text r = text).
    { intros H. apply app_inv_head in H. injection H as <-. now repeat split. }
    now destruct (Py.has_len text).
  - cbn [snd]. intros H. apply (f_equal (@List.length _)) in H.
    rewrite length_app in H. cbn in H. lia.
Qed.

Section ProgramQuery.

Variable http : trace -> request -> result json.
Variable repr : json -> string.
Variable lang : string.

(** What one keyword adds to the trace, and what its record is made of. *)
Lemma program_query_facts (query : string) (w : world trace) :
  let res := process_query (resolve_title http) (fetch_plaintext_extract http)
               (fetch_sections http repr) lang query w in
  exists evs,
    net (snd res) = net w ++ evs
    /\ within (4 * MAX_RETRIES) (4 * (BACKOFF_BASE * 6)) evs
    /\ 3 <= attempts_made evs
    /\ (forall r,
          data_txt (snd res) = data_txt w ++ [r] ->
          In (EvGet (sections_request (title r) lang)) evs
          /\ record_well_formed r).
Proof.
  cbn zeta. unfold process_query, fetch_and_emit, resolve_stage.
  destruct (resolve_title_adds http query lang (net w))
    as (e1 & H1 & Hw1 & Hin1).
  destruct (resolve_title http query lang (net w)) as [r1 n1].
  cbn [snd] in H1. subst n1.
  set (ttl := Py.or match r1 with Ok v => v | Raise _ => JNull end (JStr query)).
  destruct (content_stage (fetch_plaintext_extract http) lang ttl
              (net w ++ e1)) as [[[text norm_title] pageid] n2] eqn:Hc.
  pose proof (content_stage_text _ _ _ _ _ _ _ _ Hc) as Htext.
  unfold content_stage in Hc.
  destruct (extract_adds http ttl lang (net w ++ e1)) as (e2 & H2 & Hw2 & Hin2).
  destruct (fetch_plaintext_extract http ttl lang (net w ++ e1)) as [r2 n2'].
  cbn [snd] in H2. injection Hc as _ <-. subst n2'.
  unfold outline_stage.
  destruct (sections_adds http repr norm_title lang ((net w ++ e1) ++ e2))
    as (e3 & H3 & Hw3 & Hin3).
  pose proof (fetch_sections_stripped http repr norm_title lang
                ((net w ++ e1) ++ e2)) as Htoc.
  destruct (fetch_sections http repr norm_title lang ((net w ++ e1) ++ e2))
    as [r3 n3].
  cbn [snd] in H3. cbn [fst] in Htoc. subst n3.
  set (toc := match r3 with Ok toc => toc | Raise _ => [] end).
  assert (Htoc' : Forall (fun name => name <> "" /\ PyStr.strip name = name)
                    toc).
  { subst toc. destruct r3 as [t|e]; [now apply Htoc | constructor]. }
  set (w3 := set_net w (((net w ++ e1) ++ e2) ++ e3)).
  destruct (emit_outcome trace lang text norm_title toc w3) as [Hnet _].
  exists (e1 ++ e2 ++ e3). rewrite Hnet. subst w3. cbn [set_net net].
  split; [now rewrite <- !app_assoc|]. split; [|split].
  - eapply within_weaken;
      [exact (within_app _ _ _ _ _ _ Hw1 (within_app _ _ _ _ _ _ Hw2 Hw3))
      | lia | lia].
  - rewrite !attempts_made_app.
    assert (Hone : forall rq evs, In (EvGet rq) evs -> 1 <= attempts_made evs).
    { intros rq evs Hin. apply in_split in Hin. destruct Hin as (a & b & ->).
      rewrite attempts_made_app. unfold attempts_made at 2. cbn. lia. }
    pose proof (Hone _ _ Hin1). pose proof (Hone _ _ Hin2).
    pose proof (Hone _ _ Hin3). lia.
  - intros r Hr.
    apply (emit_written lang text norm_title toc
             (set_net w (((net w ++ e1) ++ e2) ++ e3)) r) in Hr.
    destruct Hr as (-> & Ht & Hx). split.
    + apply in_or_app. right. apply in_or_app. now right.
    + unfold record_well_formed. now rewrite Ht, Hx.
Qed.

End ProgramQuery.

Section ProgramRun.

Variable http : trace -> request -> result json.
Variable repr : json -> string.
Variable lang : string.

Lemma program_rows_facts (rows : list json) :
  forall w,
    let res := rows_loop repr (resolve_title http)
                 (fetch_plaintext_extract http) (fetch_sections http repr)
                 lang rows w in
    let n := List.length (queries repr rows) in
    exists evs rs,
      net (snd res) = net w ++ evs
      /\ data_txt (snd res) = data_txt w ++ rs
      /\ within (4 * MAX_RETRIES * n)
           (4 * (BACKOFF_BASE * 6) * Z.of_nat n) evs
      /\ (fst res = Ok tt -> 3 * n <= attempts_made evs)
      /\ Forall (fun r =>
                   In (EvGet (sections_request (title r) lang)) evs
                   /\ record_well_formed r) rs.
Proof.
  induction rows as [|cell rest IH]; intros w; cbn zeta.
  - exists [], []. cbn [rows_loop fst snd]. rewrite !app_nil_r.
    repeat split; cbn; try lia. constructor.
  - cbn [rows_loop]. unfold process_row, queries. cbn [map filter].
    fold (queries repr rest).
    destruct (keyword repr cell =? "") eqn:Hblank; cbn [negb].
    + apply IH.
    + pose proof (program_query_facts http repr lang (keyword repr cell) w)
        as (e1 & Hn1 & Hw1 & Hlow1 & Hrec).
      pose proof (process_query_outcome trace (resolve_title http)
                    (fetch_plaintext_extract http) (fetch_sections http repr)
                    lang (keyword repr cell) w) as Hout.
      cbn zeta in Hn1, Hrec, Hout.
      destruct (process_query _ _ _ _ _ w) as [res w1].
      cbn [fst snd] in Hn1, Hrec, Hout. cbn [List.length].
      unfold MAX_RETRIES, BACKOFF_BASE in *.
      destruct Hout as [[-> (r & Hd & _)]
                       |[[-> (Hd & _)]
                        |[-> (r & Hd & _)]]].
      * destruct (IH w1) as (e2 & rs & Hn2 & Hd2 & Hw2 & Hlow2 & Hall).
        cbn zeta in Hn2, Hd2, Hw2, Hlow2.
        exists (e1 ++ e2), (r :: rs).
        rewrite Hn2, Hd2, Hn1, Hd, <- !app_assoc.
        split; [reflexivity|]. split; [reflexivity|].
        split; [|split].
        -- eapply within_weaken;
             [exact (within_app _ _ _ _ _ _ Hw1 Hw2) | lia | lia].
        -- intros Hok. specialize (Hlow2 Hok).
           rewrite attempts_made_app. lia.
        -- constructor.
           ++ destruct (Hrec r Hd) as [Hin Hwf]. split; [|exact Hwf].
              apply in_or_app. now left.
           ++ eapply Forall_impl; [|exact Hall].
              intros r0 [Hin Hwf]. split; [|exact Hwf].
              apply in_or_app. now right.
      * exists e1, []. cbn [fst snd]. rewrite app_nil_r.
        split; [exact Hn1|]. split; [exact Hd|].
        split; [|split; [discriminate | constructor]].
        eapply within_weaken; [exact Hw1 | lia | lia].
      * exists e1, [r]. cbn [fst snd].
        split; [exact Hn1|]. split; [exact Hd|].
        split; [|split; [discriminate|]].
        -- eapply within_weaken; [exact Hw1 | lia | lia].
        -- constructor; [now apply Hrec | constructor].
Qed.

(** X7: a run of the program only adds events to the trace; for [n]
    keywords that are not blank it makes at most [4 * MAX_RETRIES * n]
    requests and spends at most [4 * BACKOFF_BASE * (1 + 2 + 3) * n]
    milliseconds in backoff sleeps, and when it ends normally it has made
    at least [3 * n] requests. *)
Theorem request_budget (df : list json) (w : world trace) :
  let run := run_pipeline http repr df lang w in
  let n := List.length (queries repr df) in
  exists evs,
    net (snd run) = net w ++ evs
    /\ attempts_made evs <= 4 * MAX_RETRIES * n
    /\ (0 <= backoff_ms evs <= 4 * (BACKOFF_BASE * 6) * Z.of_nat n)%Z
    /\ (fst run = Ok tt -> 3 * n <= attempts_made evs).
Proof.
  cbn zeta. unfold run_pipeline, fetch_and_write_ndjson.
  destruct (program_rows_facts df (open_w w))
    as (evs & rs & Hn & _ & [Ha Hb] & Hlow & _).
  cbn zeta in Hn, Ha, Hb, Hlow. exists evs. now repeat split.
Qed.

(** X8: every record of [data.txt] carries the title under which its
    outline was requested during the run: the sections request is made
    for the normalised title that the record reports, not for the query
    or the resolved title. *)
Theorem outline_requested_for_record_title (df : list json)
    (w : world trace) :
  let run := run_pipeline http repr df lang w in
  exists evs,
    net (snd run) = net w ++ evs
    /\ Forall (fun r => In (EvGet (sections_request (title r) lang)) evs)
              (data_txt (snd run)).
Proof.
  cbn zeta. unfold run_pipeline, fetch_and_write_ndjson.
  destruct (program_rows_facts df (open_w w))
    as (evs & rs & Hn & Hd & _ & _ & Hall).
  cbn zeta in Hn, Hd. exists evs. split; [exact Hn|].
  rewrite Hd. cbn [open_w data_txt app].
  eapply Forall_impl; [|exact Hall]. now intros r [Hin _].
Qed.

(** X9: in every record the program writes, the entries of
    [table_of_contents] are not empty and carry no white space at either
    end, and [raw_text] is never [None] nor any other false value except
    the empty string. *)
Theorem records_well_formed (df : list json) (w : world trace) :
  Forall record_well_formed
    (data_txt (snd (run_pipeline http repr df lang w))).
Proof.
  unfold run_pipeline, fetch_and_write_ndjson.
  destruct (program_rows_facts df (open_w w))
    as (evs & rs & _ & Hd & _ & _ & Hall).
  cbn zeta in Hd. rewrite Hd. cbn [open_w data_txt app].
  eapply Forall_impl; [|exact Hall]. now intros r [_ Hwf].
Qed.

End ProgramRun.

(** ** A remote that is out of order *)

Section Outage.

Variable http : trace -> request -> result json.
Variable repr : json -> string.
Variable lang : string.
Hypothesis http_down : outage http.

Lemma outage_call {A : Type} (rq : request) (read : json -> result A)
    (tr : trace) :
  exists l,
    retry_loop (attempt http rq read) attempt_numbers None tr
    = (inr l, tr ++ failed_attempts rq 1 MAX_RETRIES).
Proof.
  assert (Hfail : always_fails http rq read).
  { intros tr0. rewrite attempt_unfold. cbn [fst].
    specialize (http_down tr0 rq). now destruct (http tr0 rq). }
  destruct (retry_loop_always_fails http rq read Hfail attempt_numbers None tr)
    as (l & tr' & Hloop).
  pose proof (retry_loop_shape http rq read MAX_RETRIES 1 None tr) as [f Hf].
  fold attempt_numbers in Hf. rewrite Hloop in Hf. destruct Hf as [_ ->].
  now exists l.
Qed.

Lemma outage_query (query : string) (w : world trace) :
  process_query (resolve_title http) (fetch_plaintext_extract http)
    (fetch_sections http repr) lang query w
  = (Ok tt,
     pause (write (bare_record lang query)
              (set_net w
                 (net w
                    ++ failed_attempts (action_search_request query lang) 1
                         MAX_RETRIES
                    ++ failed_attempts (extract_request (JStr query) lang) 1
                         MAX_RETRIES
                    ++ failed_attempts (sections_request (JStr query) lang) 1
                         MAX_RETRIES)))).
Proof.
  unfold process_query, fetch_and_emit, resolve_stage, content_stage,
    outline_stage, resolve_title, resolve_title_action_search,
    fetch_plaintext_extract, fetch_sections.
  destruct (outage_call (action_search_request query lang) read_action_search
              (net w)) as [l1 ->].
  change (Py.or JNull (JStr query)) with (JStr query).
  destruct (outage_call (extract_request (JStr query) lang)
              (read_extract (JStr query))
              (net w ++ failed_attempts (action_search_request query lang) 1
                          MAX_RETRIES)) as [l2 ->].
  destruct (outage_call (sections_request (JStr query) lang)
              (read_sections repr)
              ((net w ++ failed_attempts (action_search_request query lang) 1
                           MAX_RETRIES)
               ++ failed_attempts (extract_request (JStr query) lang) 1
                    MAX_RETRIES)) as [l3 ->].
  unfold emit, bare_record. cbn [canonical_url Py.has_len].
  now rewrite <- !app_assoc.
Qed.

Lemma outage_rows (rows : list json) :
  forall w,
    let res := rows_loop repr (resolve_title http)
                 (fetch_plaintext_extract http) (fetch_sections http repr)
                 lang rows w in
    exists evs,
      fst res = Ok tt
      /\ data_txt (snd res)
         = data_txt w ++ map (bare_record lang) (queries repr rows)
      /\ net (snd res) = net w ++ evs
      /\ attempts_made evs
         = 3 * MAX_RETRIES * List.length (queries repr rows).
Proof.
  induction rows as [|cell rest IH]; intros w; cbn zeta.
  - exists []. cbn. rewrite !app_nil_r. now repeat split.
  - cbn [rows_loop]. unfold process_row, queries. cbn [map filter].
    fold (queries repr rest).
    destruct (keyword repr cell =? "") eqn:Hblank; cbn [negb].
    + apply IH.
    + rewrite outage_query.
      set (e1 := failed_attempts _ 1 MAX_RETRIES
                   ++ failed_attempts _ 1 MAX_RETRIES
                   ++ failed_attempts _ 1 MAX_RETRIES).
      destruct (IH (pause (write (bare_record lang (keyword repr cell))
                             (set_net w (net w ++ e1)))))
        as (e2 & Hok & Hd & Hn & Ha).
      cbn zeta in Hok, Hd, Hn. cbn [pause write set_net net data_txt] in Hd, Hn.
      exists (e1 ++ e2). rewrite Hok, Hd, Hn, <- !app_assoc.
      split; [reflexivity|]. split; [reflexivity|]. split; [reflexivity|].
      rewrite attempts_made_app, Ha. subst e1.
      rewrite !attempts_made_app, !attempts_made_failed.
      cbn [map List.length]. lia.
Qed.

(** X10: when no request is ever answered the run still ends normally:
    each keyword that is not blank costs [3 * MAX_RETRIES] requests (the
    secondary search strategy is not tried) and gets a line whose title is
    the keyword itself, whose URL is the canonical URL of the keyword, and
    whose outline and text are empty. *)
Theorem outage_yields_bare_records (df : list json) (w : world trace) :
  let run := run_pipeline http repr df lang w in
  fst run = Ok tt
  /\ data_txt (snd run) = map (bare_record lang) (queries repr df)
  /\ exists evs,
       net (snd run) = net w ++ evs
       /\ attempts_made evs
          = 3 * MAX_RETRIES * List.length (queries repr df).
Proof.
  cbn zeta. unfold run_pipeline, fetch_and_write_ndjson.
  destruct (outage_rows df (open_w w)) as (evs & Hok & Hd & Hn & Ha).
  cbn zeta in Hok, Hd, Hn.
  split; [exact Hok|]. split; [exact Hd|]. now exists evs.
Qed.

End Outage.

Lemma outage_yields_bare_records_witness :
  let run := run_pipeline Sample.down Sample.repr
               [JStr " a b "; JStr ""; JStr "c"] "en" Sample.stale in
  fst run = Ok tt
  /\ data_txt (snd run)
     = map (bare_record "en")
           (queries Sample.repr [JStr " a b "; JStr ""; JStr "c"])
  /\ exists evs,
       net (snd run) = net Sample.stale ++ evs
       /\ attempts_made evs
          = 3 * MAX_RETRIES
            * List.length
                (queries Sample.repr [JStr " a b "; JStr ""; JStr "c"]).
Proof.
  apply (outage_yields_bare_records Sample.down Sample.repr "en").
  intros tr rq. reflexivity.
Defined.

(** ** Canonical URLs, continued *)

(** X11: [canonical_url] raises [AttributeError] exactly on a title that is
    not a string; on a string it returns the address of the language
    edition followed by letters, digits and the characters [_.-~/%] only:
    no space, no [?] or [#], no byte outside ASCII. *)
Theorem canonical_url_is_url_safe (lang : string) (ttl : json) :
  match canonical_url lang ttl with
  | Ok u =>
      is_str ttl = true
      /\ exists enc,
           wiki_url lang enc u
           /\ forallb PyStr.url_char (list_ascii_of_string enc) = true
  | Raise e => e = AttributeError /\ is_str ttl = false
  end.
Proof.
  destruct ttl; cbn [canonical_url is_str]; try (now split).
  split; [reflexivity|].
  exists (PyStr.quote (PyStr.replace_space s)).
  split; [reflexivity | apply quote_url_chars].
Qed.

Lemma quote_plain (l : list ascii) :
  forallb (fun c => PyStr.always_safe c || (c =? "/")%char) l = true ->
  flat_map PyStr.quote_byte l = l.
Proof.
  induction l as [|c l IH]; [reflexivity|]. cbn [forallb flat_map].
  intros H. apply andb_true_iff in H. destruct H as [Hc Hl].
  unfold PyStr.quote_byte at 1. rewrite Hc. cbn [app]. now rewrite IH.
Qed.

(** X12: a title made of letters, digits, [_.-~/] and spaces only is not
    percent-encoded at all: its URL is the address of the language edition
    followed by the title with underscores for spaces. *)
Theorem plain_title_url (lang t : string) :
  forallb plain_title_char (list_ascii_of_string t) = true ->
  canonical_url lang (JStr t)
  = Ok ("https://" ++ lang ++ ".wikipedia.org/wiki/"
          ++ PyStr.replace_space t)%string.
Proof.
  intros Hplain. cbn [canonical_url]. do 4 f_equal.
  unfold PyStr.quote, PyStr.replace_space.
  rewrite list_ascii_of_string_of_list_ascii. f_equal.
  apply quote_plain.
  induction (list_ascii_of_string t) as [|c l IH]; [reflexivity|].
  cbn [forallb map] in *. apply andb_true_iff in Hplain.
  destruct Hplain as [Hc Hl]. rewrite (IH Hl), andb_true_r.
  unfold plain_title_char in Hc.
  destruct (c =? " ")%char eqn:Hsp; [reflexivity|].
  now rewrite orb_false_r in Hc.
Qed.

Lemma plain_title_url_witness :
  canonical_url "en" (JStr "Albert Einstein")
  = Ok ("https://" ++ "en" ++ ".wikipedia.org/wiki/"
          ++ PyStr.replace_space "Albert Einstein")%string.
Proof.
  apply (plain_title_url "en" "Albert Einstein"). reflexivity.
Defined.

Lemma hex_digit_inj (a b : nat) :
  a < 16 -> b < 16 -> PyStr.hex_digit a = PyStr.hex_digit b -> a = b.
Proof.
  intros Ha Hb.
  do 16 (destruct a as [|a];
         [do 16 (destruct b as [|b];
                 [first [reflexivity
                        | intros H; vm_compute in H; discriminate H]|]);
          lia|]).
  lia.
Qed.

Lemma code_bounded (c : ascii) : PyStr.code c < 256.
Proof. apply nat_ascii_bounded. Qed.

Lemma percent_inj (c c' : ascii) :
  PyStr.hex_digit (PyStr.code c / 16) = PyStr.hex_digit (PyStr.code c' / 16) ->
  PyStr.hex_digit (PyStr.code c mod 16)
  = PyStr.hex_digit (PyStr.code c' mod 16) ->
  c = c'.
Proof.
  intros Hhi Hlo.
  pose proof (code_bounded c) as Hc. pose proof (code_bounded c') as Hc'.
  apply hex_digit_inj in Hhi;
    [| apply Nat.Div0.div_lt_upper_bound; lia
     | apply Nat.Div0.div_lt_upper_bound; lia].
  apply hex_digit_inj in Hlo;
    [| apply Nat.mod_upper_bound; lia | apply Nat.mod_upper_bound; lia].
  assert (Heq : PyStr.code c = PyStr.code c').
  { rewrite (Nat.div_mod_eq (PyStr.code c) 16),
      (Nat.div_mod_eq (PyStr.code c') 16). now rewrite Hhi, Hlo. }
  unfold PyStr.code in Heq.
  rewrite <- (ascii_nat_embedding c), <- (ascii_nat_embedding c').
  now rewrite Heq.
Qed.

Lemma quote_byte_inj (c c' : ascii) (x y : list ascii) :
  PyStr.quote_byte c ++ x = PyStr.quote_byte c' ++ y -> c = c' /\ x = y.
Proof.
  unfold PyStr.quote_byte.
  destruct (PyStr.always_safe c || (c =? "/")%char) eqn:Hs;
    destruct (PyStr.always_safe c' || (c' =? "/")%char) eqn:Hs';
    cbn [app]; intros H.
  - injection H as -> ->. now split.
  - injection H as -> _. discriminate Hs.
  - injection H as <- _. discriminate Hs'.
  - injection H as Hhi Hlo ->. split; [|reflexivity].
    now apply percent_inj.
Qed.

Lemma quote_bytes_inj (l : list ascii) :
  forall l',
    flat_map PyStr.quote_byte l = flat_map PyStr.quote_byte l' -> l = l'.
Proof.
  assert (Hne : forall c x, PyStr.quote_byte c ++ x <> []).
  { intros c x. unfold PyStr.quote_byte.
    now destruct (PyStr.always_safe c || (c =? "/")%char). }
  induction l as [|c l IH]; intros [|c' l'] H; cbn [flat_map] in H.
  - reflexivity.
  - symmetry in H. now apply Hne in H.
  - now apply Hne in H.
  - apply quote_byte_inj in H. destruct H as [-> H]. f_equal. now apply IH.
Qed.

Lemma string_of_list_ascii_inj (l l' : list ascii) :
  string_of_list_ascii l = string_of_list_ascii l' -> l = l'.
Proof.
  intros H. apply (f_equal list_ascii_of_string) in H.
  now rewrite !list_ascii_of_string_of_list_ascii in H.
Qed.

Lemma list_ascii_of_string_inj (s s' : string) :
  list_ascii_of_string s = list_ascii_of_string s' -> s = s'.
Proof.
  intros H. apply (f_equal string_of_list_ascii) in H.
  now rewrite !string_of_list_ascii_of_string in H.
Qed.

Lemma quote_inj (s s' : string) : PyStr.quote s = PyStr.quote s' -> s = s'.
Proof.
  unfold PyStr.quote. intros H. apply string_of_list_ascii_inj in H.
  apply quote_bytes_inj in H. now apply list_ascii_of_string_inj.
Qed.

Lemma append_inv_head (p a b : string) :
  (p ++ a)%string = (p ++ b)%string -> a = b.
Proof.
  induction p as [|c p IH]; cbn; intros H; [exact H|].
  injection H as H. now apply IH.
Qed.

(** X13: within one language edition, two titles have the same canonical
    URL exactly when they are equal up to spaces written as underscores:
    percent-encoding never makes two different titles collide. *)
Theorem canonical_url_collisions (lang t t' : string) :
  canonical_url lang (JStr t) = canonical_url lang (JStr t')
  <-> PyStr.replace_space t = PyStr.replace_space t'.
Proof.
  unfold canonical_url. split.
  - intros H.
    assert (Hu : ("https://" ++ lang ++ ".wikipedia.org/wiki/"
                    ++ PyStr.quote (PyStr.replace_space t))%string
                 = ("https://" ++ lang ++ ".wikipedia.org/wiki/"
                      ++ PyStr.quote (PyStr.replace_space t'))%string)
      by congruence.
    apply (append_inv_head "https://") in Hu.
    apply (append_inv_head lang) in Hu.
    apply (append_inv_head ".wikipedia.org/wiki/") in Hu.
    now apply quote_inj.
  - now intros ->.
Qed.

(** ** File names *)

Lemma list_of_append (a b : string) :
  list_ascii_of_string (a ++ b)
  = list_ascii_of_string a ++ list_ascii_of_string b.
Proof. induction a as [|c a IH]; cbn; [reflexivity | now rewrite IH]. Qed.

Lemma append_empty_r (a : string) : (a ++ "")%string = a.
Proof. induction a as [|c a IH]; cbn; [reflexivity | now rewrite IH]. Qed.

Lemma concat_cons (x : string) (xs : list string) :
  String.concat "" (x :: xs) = (x ++ String.concat "" xs)%string.
Proof.
  destruct xs as [|y ys]; cbn [String.concat].
  - now rewrite append_empty_r.
  - reflexivity.
Qed.

(** [chars_from] returns the leading continuation bytes apart and cuts the
    rest into characters; no byte is invented. *)
Lemma chars_from_facts (s : string) :
  forallb is_continuation (list_ascii_of_string (fst (PyStr.chars_from s)))
  = true
  /\ forallb one_char (snd (PyStr.chars_from s)) = true
  /\ (fst (PyStr.chars_from s)
        ++ String.concat "" (snd (PyStr.chars_from s)))%string = s.
Proof.
  induction s as [|c s (Hp & Hc & Hs)]; [now cbn|].
  cbn [PyStr.chars_from].
  destruct (PyStr.chars_from s) as [pending cs]. cbn [fst snd] in *.
  fold (is_continuation c).
  destruct (is_continuation c) eqn:Hcont; cbn [fst snd].
  - split; [cbn; now rewrite Hcont, Hp|]. split; [exact Hc|].
    cbn. now rewrite Hs.
  - split; [reflexivity|]. split.
    + cbn [forallb one_char]. now rewrite Hcont, Hp, Hc.
    + rewrite concat_cons. cbn. now rewrite Hs.
Qed.

Lemma chars_from_continuations (r t : string) :
  forallb is_continuation (list_ascii_of_string r) = true ->
  PyStr.chars_from (r ++ t)
  = ((r ++ fst (PyStr.chars_from t))%string, snd (PyStr.chars_from t)).
Proof.
  induction r as [|c r IH]; cbn [append list_ascii_of_string forallb].
  - intros _. now destruct (PyStr.chars_from t).
  - intros H. apply andb_true_iff in H. destruct H as [Hc Hr].
    cbn [PyStr.chars_from]. rewrite (IH Hr).
    fold (is_continuation c). now rewrite Hc.
Qed.

(** Cutting into characters undoes joining characters. *)
Lemma chars_from_concat (cs : list string) :
  forallb one_char cs = true ->
  PyStr.chars_from (String.concat "" cs) = (EmptyString, cs).
Proof.
  induction cs as [|x xs IH]; [reflexivity|].
  cbn [forallb]. intros H. apply andb_true_iff in H. destruct H as [Hx Hxs].
  rewrite concat_cons. destruct x as [|a r]; [discriminate|].
  cbn [one_char] in Hx. apply andb_true_iff in Hx. destruct Hx as [Ha Hr].
  cbn [append PyStr.chars_from].
  rewrite (chars_from_continuations _ _ Hr), (IH Hxs). cbn [fst snd].
  fold (is_continuation a). apply negb_true_iff in Ha. rewrite Ha.
  now rewrite append_empty_r.
Qed.

Lemma forallb_firstn {A : Type} (f : A -> bool) (n : nat) (l : list A) :
  forallb f l = true -> forallb f (firstn n l) = true.
Proof.
  revert l. induction n as [|n IH]; intros [|x l]; cbn; try reflexivity.
  intros H. apply andb_true_iff in H. destruct H as [-> H]. now apply IH.
Qed.

Lemma take_chars_count (n : nat) (s : string) :
  PyStr.chars (take_chars n s) = firstn n (PyStr.chars s).
Proof.
  unfold take_chars, PyStr.chars at 1.
  rewrite chars_from_concat; [reflexivity|].
  apply forallb_firstn. unfold PyStr.chars.
  now destruct (chars_from_facts s) as (_ & H & _).
Qed.

Lemma In_concat (c : ascii) (cs : list string) :
  In c (list_ascii_of_string (String.concat "" cs)) ->
  exists piece, In piece cs /\ In c (list_ascii_of_string piece).
Proof.
  induction cs as [|x xs IH]; [intros []|].
  rewrite concat_cons, list_of_append, in_app_iff. intros [H|H].
  - exists x. split; [now left | exact H].
  - destruct (IH H) as (piece & Hin & Hc). exists piece.
    split; [now right | exact Hc].
Qed.

Lemma In_take_chars (c : ascii) (n : nat) (s : string) :
  In c (list_ascii_of_string (take_chars n s)) ->
  In c (list_ascii_of_string s).
Proof.
  unfold take_chars. intros H. apply In_concat in H.
  destruct H as (piece & Hin & Hc).
  destruct (chars_from_facts s) as (_ & _ & Hs). rewrite <- Hs.
  rewrite list_of_append, in_app_iff. right.
  assert (Hin' : In piece (PyStr.chars s)).
  { rewrite <- (firstn_skipn n (PyStr.chars s)). apply in_or_app. now left. }
  unfold PyStr.chars in Hin'. clear Hin Hs.
  induction (snd (PyStr.chars_from s)) as [|x xs IH]; [destruct Hin'|].
  rewrite concat_cons, list_of_append, in_app_iff.
  destruct Hin' as [->|Hin']; [now left | right; now apply IH].
Qed.

Lemma In_drop_ws (back : bool) (c : ascii) (l : list ascii) :
  In c (PyStr.drop_ws back l) -> In c l.
Proof.
  destruct (drop_ws_suffix back (List.length l) l (le_n _)) as [pre Hpre].
  intros H. rewrite Hpre. apply in_or_app. now right.
Qed.

Lemma In_strip (c : ascii) (s : string) :
  In c (list_ascii_of_string (PyStr.strip s)) ->
  In c (list_ascii_of_string s).
Proof.
  unfold PyStr.strip. rewrite list_ascii_of_string_of_list_ascii.
  intros H. apply in_rev in H. apply In_drop_ws in H.
  apply in_rev in H. now apply In_drop_ws in H.
Qed.

Lemma In_replace_char (ch c : ascii) (s : string) :
  In c (list_ascii_of_string (replace_char ch s)) ->
  c <> "_"%char ->
  c <> ch /\ In c (list_ascii_of_string s).
Proof.
  unfold replace_char. rewrite list_ascii_of_string_of_list_ascii.
  intros H Hc. apply in_map_iff in H. destruct H as (x & Hx & Hin).
  destruct (x =? ch)%char eqn:E.
  - now destruct Hc.
  - subst x. split; [|exact Hin]. intros ->.
    now rewrite Ascii.eqb_refl in E.
Qed.

Lemma In_replace_all (todo : list ascii) :
  forall (s : string) (c : ascii),
    In c (list_ascii_of_string
            (fold_left (fun nm ch => replace_char ch nm) todo s)) ->
    c <> "_"%char ->
    ~ In c todo /\ In c (list_ascii_of_string s).
Proof.
  induction todo as [|ch rest IH]; intros s c H Hc; cbn [fold_left] in H.
  - now split.
  - apply IH in H; [|exact Hc]. destruct H as [Hrest H].
    apply In_replace_char in H; [|exact Hc]. destruct H as [Hne H].
    split; [|exact H]. intros [->|Hin]; [now apply Hne | now apply Hrest].
Qed.

Lemma safe_filename_byte (name : string) (c : ascii) :
  In c (list_ascii_of_string (safe_filename name)) ->
  ~ In c bad_filename_chars
  /\ (c = "_"%char \/ In c (list_ascii_of_string name)).
Proof.
  unfold safe_filename. intros H.
  apply In_take_chars in H. apply In_strip in H.
  destruct (Ascii.eqb_spec c "_"%char) as [->|Hc].
  - split; [|now left]. cbn. intros Hin.
    repeat (destruct Hin as [Hin|Hin]; [discriminate Hin|]). exact Hin.
  - apply In_replace_all in H; [|exact Hc]. destruct H as [Hbad Hin].
    split; [exact Hbad | now right].
Qed.

(** X14: the result of [safe_filename] holds none of the characters that
    it replaces, and every byte of it other than the underscore was in the
    name it was given. *)
Theorem safe_filename_is_safe (name : string) :
  Forall (fun c =>
            ~ In c bad_filename_chars
            /\ (c = "_"%char \/ In c (list_ascii_of_string name)))
         (list_ascii_of_string (safe_filename name)).
Proof.
  apply Forall_forall. intros c. apply safe_filename_byte.
Qed.

(** X15: the result of [safe_filename] has at most 180 characters. *)
Theorem safe_filename_is_short (name : string) :
  char_count (safe_filename name) <= 180.
Proof.
  unfold char_count, safe_filename. rewrite take_chars_count.
  apply firstn_le_length.
Qed.

Example safe_filename_demo :
  safe_filename "  a<b>: c/d?.txt  " = "a_b__ c_d_.txt".
Proof. reflexivity. Qed.

(** ** Title resolution, the fallback chain *)

(** X16: [resolve_title] reports that there is no title (a false value)
    only after it has asked the secondary strategy too: the events of such
    a call hold a request of each strategy, and the value returned is the
    one the secondary strategy gave. *)
Theorem no_title_only_after_secondary
    (http : trace -> request -> result json) (query lang : string)
    (tr tr' : trace) (v : json) :
  resolve_title http query lang tr = (Ok v, tr') ->
  Py.truthy v = false ->
  exists tr1 evs,
    resolve_title_rest_search http query lang tr1 = (Ok v, tr')
    /\ tr' = tr ++ evs
    /\ In (EvGet (action_search_request query lang)) evs
    /\ In (EvGet (rest_search_request query lang)) evs.
Proof.
  intros Hres Hfalse. unfold resolve_title in Hres.
  destruct (action_search_adds http query lang tr) as (e1 & H1 & _ & Hin1).
  destruct (resolve_title_action_search http query lang tr) as [[v1|e] tr1];
    [|discriminate].
  cbn [snd] in H1. subst tr1.
  destruct (Py.truthy v1) eqn:Ht1.
  - injection Hres as -> _. congruence.
  - destruct (rest_search_adds http query lang (tr ++ e1))
      as (e2 & H2 & _ & Hin2).
    rewrite Hres in H2. cbn [snd] in H2.
    exists (tr ++ e1), (e1 ++ e2).
    split; [exact Hres|]. split; [now rewrite app_assoc|].
    split; apply in_or_app; [now left | now right].
Qed.

Lemma no_title_only_after_secondary_witness :
  exists tr1 evs,
    resolve_title_rest_search Sample.unknown "zzzz" "en" tr1
    = (Ok JNull,
       [EvGet (action_search_request "zzzz" "en");
        EvGet (rest_search_request "zzzz" "en")])
    /\ [EvGet (action_search_request "zzzz" "en");
        EvGet (rest_search_request "zzzz" "en")] = [] ++ evs
    /\ In (EvGet (action_search_request "zzzz" "en")) evs
    /\ In (EvGet (rest_search_request "zzzz" "en")) evs.
Proof.
  apply (no_title_only_after_secondary Sample.unknown "zzzz" "en" []
           [EvGet (action_search_request "zzzz" "en");
            EvGet (rest_search_request "zzzz" "en")] JNull); reflexivity.
Defined.
